(** * gemini-cli-updater: the update decision core and its config store

    A shallow embedding of class [Config] ([lib/config.js]), of class
    [Updater] (the class that requires [./config] and [./logger]; in the
    sources at hand its text follows the uninstaller in
    [scripts/uninstall.js]) and of [checkAndUpdate], the part of the
    command-line entry point that sequences a check and an install.

    JavaScript values are typed the way the code uses them: timestamps are
    integers ([Z]) or [null], strings are [string], the version history is
    a list of records.  A field that the code guards with [||] or [?.]
    is an [option], where [None] stands for [null]/[undefined].

    Everything outside the process is part of an explicit [World]: the
    config file, the wall clock read by [Date.now()], the answer of the
    wrapped tool to [--version], the answer of the registry, what
    [npm install -g] does, and the trace of the calls the program made. *)

From Stdlib Require Import ZArith List String Ascii Bool Lia.
Import ListNotations.
Local Open Scope string_scope.
Local Open Scope list_scope.
Local Open Scope Z_scope.

Set Implicit Arguments.

(** ** JavaScript helpers *)

Module Js.

(** [x || d] on a nullable number: [null], [undefined] and [0] are falsy. *)
Definition num_or (x : option Z) (d : Z) : Z :=
  match x with
  | Some v => if v =? 0 then d else v
  | None => d
  end.

(** [!x] on a nullable number. *)
Definition not_num (x : option Z) : bool :=
  match x with
  | Some v => v =? 0
  | None => true
  end.

(** A nullable number as an operand of [-]: [null] counts as [0]. *)
Definition num (x : option Z) : Z :=
  match x with
  | Some v => v
  | None => 0
  end.

(** [!s] on a nullable string: [null] and the empty string are falsy. *)
Definition not_str (s : option string) : bool :=
  match s with
  | Some v => (String.length v =? 0)%nat
  | None => true
  end.

(** [a || []] on a nullable array: every array is truthy. *)
Definition arr_or {A : Type} (x : option (list A)) : list A :=
  match x with
  | Some l => l
  | None => []
  end.

(** [Array.prototype.slice(start)] with one argument: a negative start
    counts from the end, and both ends are clamped to the array. *)
Definition slice_from {A : Type} (start : Z) (l : list A) : list A :=
  let len := Z.of_nat (List.length l) in
  let k := if start <? 0 then Z.max (len + start) 0 else Z.min start len in
  skipn (Z.to_nat k) l.

(** [arr[i]]: [undefined] outside the array. *)
Definition index {A : Type} (l : list A) (i : Z) : option A :=
  if i <? 0 then None else nth_error l (Z.to_nat i).

End Js.

(** ** The config document ([lib/config.js]) *)

Record VersionEntry : Type := mkEntry {
  from : string;
  to : string;
  timestamp : Z;
  success : bool
}.

Record Settings : Type := mkSettings {
  updateCooldown : option Z;
  maxVersionHistory : option Z;
  enableLogging : option bool;
  autoUpdate : option bool
}.

(** The object [readConfig] hands out: the four top-level keys are always
    there (the defaults supply them), their values may be [null]. *)
Record ConfigDoc : Type := mkConfig {
  lastUpdateCheck : option Z;
  lastUpdateTime : option Z;
  versionHistory : option (list VersionEntry);
  settings : option Settings
}.

(** What [JSON.parse] of the file yields: an object in which any of the
    top-level keys may be absent (outer [None]) or [null] (inner [None]). *)
Record StoredDoc : Type := mkStored {
  st_lastUpdateCheck : option (option Z);
  st_lastUpdateTime : option (option Z);
  st_versionHistory : option (option (list VersionEntry));
  st_settings : option (option Settings)
}.

(** The content of [config.json]: text that [readFileSync]/[JSON.parse]
    reject, or the JSON object it parses to. *)
Inductive FileContent : Type :=
| Unparseable
| Json (d : StoredDoc).

(** ** The world outside the process *)

(** Outcome of [execSync]: it throws (non-zero exit, timeout, command not
    found) or returns the captured standard output. *)
Inductive ExecResult : Type :=
| ExecThrows (msg : string)
| ExecStdout (out : string).

(** Outcome of [npm install -g <spec>]: failure, or success leaving the
    wrapped tool in a state where [--version] answers [tool_after]. *)
Inductive NpmResult : Type :=
| NpmThrows (msg : string)
| NpmInstalled (out : string) (tool_after : ExecResult).

(** The body of the registry answer: it does not parse (or parses to
    [null]), or it parses to an object whose [version] may be missing. *)
Inductive RegistryBody : Type :=
| BadJson
| JsonObject (version : option string).

(** Outcome of [https.get]: the ['error'] event, the ['timeout'] event, or
    a complete response. *)
Inductive HttpResult : Type :=
| HttpError (msg : string)
| HttpTimeout
| HttpEnd (body : RegistryBody).

Inductive Level : Type := Debug | Info | Warn | Error.

(** What the process did to the outside, oldest first. *)
Inductive Event : Type :=
| EvExec (cmd : string)
| EvHttpGet (url : string)
| EvMkdir
| EvUnlink
| EvWriteConfig (d : ConfigDoc)
| EvConsoleWarn (msg : string) (arg : string)
| EvLog (lvl : Level) (msg : string) (args : list string).

Record World : Type := mkWorld {
  dir_exists : bool;                 (* ~/.gemini-cli-updater *)
  file : option FileContent;         (* config.json, [None] when missing *)
  writable : bool;                   (* do mkdirSync/writeFileSync succeed *)
  clock : Z;                         (* Date.now() *)
  latency : Z;                       (* ms taken by one external call *)
  tool : ExecResult;                 (* `<commandName> --version` *)
  registry : HttpResult;             (* GET <registry>/<package>/latest *)
  npm : string -> NpmResult;         (* `npm install -g <spec>` *)
  trace : list Event
}.

(** ** Computations: state passing with JavaScript exceptions *)

Inductive Outcome (A : Type) : Type :=
| Return (a : A)
| Throw (message : string).

Arguments Return {A} a.
Arguments Throw {A} message.

Definition M (A : Type) : Type := World -> Outcome A * World.

Definition ret {A : Type} (a : A) : M A := fun w => (Return a, w).

Definition throw {A : Type} (message : string) : M A :=
  fun w => (Throw message, w).

Definition bind {A B : Type} (m : M A) (k : A -> M B) : M B :=
  fun w =>
    match m w with
    | (Return a, w') => k a w'
    | (Throw e, w') => (Throw e, w')
    end.

(** [try { m } catch (error) { h error.message }] *)
Definition try_catch {A : Type} (m : M A) (h : string -> M A) : M A :=
  fun w =>
    match m w with
    | (Return a, w') => (Return a, w')
    | (Throw e, w') => h e w'
    end.

Declare Scope js_scope.
Delimit Scope js_scope with js.
Notation "x <- m ;; k" := (bind m (fun x => k))
  (at level 100, m at next level, right associativity) : js_scope.
Notation "m ;; k" := (bind m (fun _ => k))
  (at level 100, right associativity) : js_scope.
Local Open Scope js_scope.

Definition get_world : M World := fun w => (Return w, w).

Definition emit (e : Event) : M unit :=
  fun w =>
    (Return tt,
     mkWorld (dir_exists w) (file w) (writable w) (clock w) (latency w)
             (tool w) (registry w) (npm w) (trace w ++ [e])).

(** An external call blocks for [latency] milliseconds. *)
Definition wait : M unit :=
  fun w =>
    (Return tt,
     mkWorld (dir_exists w) (file w) (writable w) (clock w + latency w)
             (latency w) (tool w) (registry w) (npm w) (trace w)).

Definition date_now : M Z := fun w => (Return (clock w), w).

Definition set_tool (t : ExecResult) : M unit :=
  fun w =>
    (Return tt,
     mkWorld (dir_exists w) (file w) (writable w) (clock w) (latency w)
             t (registry w) (npm w) (trace w)).

(** *** [fs] *)

Module Fs.

Definition existsSync_dir : M bool := fun w => (Return (dir_exists w), w).

Definition existsSync_file : M bool :=
  fun w =>
    (Return (match file w with Some _ => dir_exists w | None => false end),
     w).

(** Called when the directory is missing: the new directory is empty. *)
Definition mkdirSync : M unit :=
  fun w =>
    if writable w then
      (Return tt,
       mkWorld true None (writable w) (clock w) (latency w)
               (tool w) (registry w) (npm w) (trace w ++ [EvMkdir]))
    else (Throw "EACCES: permission denied, mkdir", w).

Definition readFileSync : M FileContent :=
  fun w =>
    match file w with
    | Some c => (Return c, w)
    | None => (Throw "ENOENT: no such file or directory, open", w)
    end.

Definition writeFileSync (d : ConfigDoc) (c : FileContent) : M unit :=
  fun w =>
    if writable w && dir_exists w then
      (Return tt,
       mkWorld (dir_exists w) (Some c) (writable w) (clock w) (latency w)
               (tool w) (registry w) (npm w)
               (trace w ++ [EvWriteConfig d]))
    else (Throw "EACCES: permission denied, open", w).

Definition unlinkSync : M unit :=
  fun w =>
    if writable w then
      (Return tt,
       mkWorld (dir_exists w) None (writable w) (clock w) (latency w)
               (tool w) (registry w) (npm w) (trace w ++ [EvUnlink]))
    else (Throw "EACCES: permission denied, unlink", w).

End Fs.

(** *** [JSON] on config documents *)

(** [JSON.parse(data)]: throws on text that is not JSON. *)
Definition json_parse (c : FileContent) : M StoredDoc :=
  match c with
  | Unparseable => throw "Unexpected token in JSON"
  | Json d => ret d
  end.

(** [JSON.stringify(config, null, 2)] followed by a later [JSON.parse]:
    every key of the in-memory document is written, [null] included. *)
Definition json_stringify (c : ConfigDoc) : FileContent :=
  Json (mkStored (Some (lastUpdateCheck c)) (Some (lastUpdateTime c))
                 (Some (versionHistory c)) (Some (settings c))).

(** ** class Config *)

Module Config.

Definition getDefaultConfig : ConfigDoc :=
  mkConfig None None (Some [])
           (Some (mkSettings (Some (60 * 60 * 1000)) (Some 10)
                             (Some true) (Some true))).

(** [{ ...defaults, ...parsed }]: a shallow merge, key by key. *)
Definition spread (defaults : ConfigDoc) (parsed : StoredDoc) : ConfigDoc :=
  mkConfig
    (match st_lastUpdateCheck parsed with
     | Some v => v | None => lastUpdateCheck defaults end)
    (match st_lastUpdateTime parsed with
     | Some v => v | None => lastUpdateTime defaults end)
    (match st_versionHistory parsed with
     | Some v => v | None => versionHistory defaults end)
    (match st_settings parsed with
     | Some v => v | None => settings defaults end).

Definition writeConfig (config : ConfigDoc) : M unit :=
  try_catch
    (Fs.writeFileSync config (json_stringify config))
    (fun e => emit (EvConsoleWarn "Warning: Could not write config file:" e)).

Definition ensureConfigExists : M unit :=
  try_catch
    (d <- Fs.existsSync_dir ;;
     (if negb d then Fs.mkdirSync else ret tt) ;;
     f <- Fs.existsSync_file ;;
     if negb f then writeConfig getDefaultConfig else ret tt)
    (fun e =>
       emit (EvConsoleWarn "Warning: Could not create config directory:" e)).

Definition readConfig : M ConfigDoc :=
  r <- try_catch
         (f <- Fs.existsSync_file ;;
          if f then
            data <- Fs.readFileSync ;;
            parsed <- json_parse data ;;
            ret (Some (spread getDefaultConfig parsed))
          else ret None)
         (fun e =>
            emit (EvConsoleWarn "Warning: Could not read config file:" e) ;;
            ret None) ;;
  match r with
  | Some c => ret c
  | None => ret getDefaultConfig
  end.

Definition getLastUpdateCheck : M (option Z) :=
  config <- readConfig ;;
  ret (lastUpdateCheck config).

Definition setLastUpdateCheck (ts : Z) : M unit :=
  config <- readConfig ;;
  writeConfig (mkConfig (Some ts) (lastUpdateTime config)
                        (versionHistory config) (settings config)).

Definition getLastUpdateTime : M (option Z) :=
  config <- readConfig ;;
  ret (lastUpdateTime config).

Definition setLastUpdateTime (ts : Z) : M unit :=
  config <- readConfig ;;
  writeConfig (mkConfig (lastUpdateCheck config) (Some ts)
                        (versionHistory config) (settings config)).

Definition getVersionHistory : M (list VersionEntry) :=
  config <- readConfig ;;
  ret (Js.arr_or (versionHistory config)).

(** [config.settings?.maxVersionHistory || 10] *)
Definition maxHistory (config : ConfigDoc) : Z :=
  Js.num_or (match settings config with
             | Some s => maxVersionHistory s
             | None => None
             end) 10.

(** The array [addVersionHistory] stores: push, then keep the last
    [maxHistory] entries when there are more. *)
Definition capped (config : ConfigDoc) (entry : VersionEntry)
  : list VersionEntry :=
  let pushed := Js.arr_or (versionHistory config) ++ [entry] in
  if maxHistory config <? Z.of_nat (List.length pushed)
  then Js.slice_from (- maxHistory config) pushed
  else pushed.

Definition addVersionHistory (fromVersion toVersion : string) : M unit :=
  config <- readConfig ;;
  now <- date_now ;;
  let versionEntry := mkEntry fromVersion toVersion now true in
  writeConfig (mkConfig (lastUpdateCheck config) (lastUpdateTime config)
                        (Some (capped config versionEntry))
                        (settings config)).

Definition getSettings : M Settings :=
  config <- readConfig ;;
  ret (match settings config with
       | Some s => s
       | None => mkSettings (Some (60 * 60 * 1000)) (Some 10)
                            (Some true) (Some true)
       end).

(** [{ ...config.settings, ...newSettings }]; a key of [newSettings] is
    absent (outer [None]) or carries a value, possibly [null]. *)
Record SettingsPatch : Type := mkPatch {
  p_updateCooldown : option (option Z);
  p_maxVersionHistory : option (option Z);
  p_enableLogging : option (option bool);
  p_autoUpdate : option (option bool)
}.

Definition spread_settings (old : option Settings) (p : SettingsPatch)
  : Settings :=
  let o := match old with
           | Some s => s
           | None => mkSettings None None None None
           end in
  mkSettings
    (match p_updateCooldown p with Some v => v | None => updateCooldown o end)
    (match p_maxVersionHistory p with
     | Some v => v | None => maxVersionHistory o end)
    (match p_enableLogging p with Some v => v | None => enableLogging o end)
    (match p_autoUpdate p with Some v => v | None => autoUpdate o end).

Definition updateSettings (newSettings : SettingsPatch) : M unit :=
  config <- readConfig ;;
  writeConfig (mkConfig (lastUpdateCheck config) (lastUpdateTime config)
                        (versionHistory config)
                        (Some (spread_settings (settings config)
                                               newSettings))).

Definition reset : M unit :=
  try_catch
    (f <- Fs.existsSync_file ;;
     (if f then Fs.unlinkSync else ret tt) ;;
     ensureConfigExists)
    (fun e => emit (EvConsoleWarn "Warning: Could not reset config:" e)).

Definition isAutoUpdateEnabled : M bool :=
  s <- getSettings ;;
  ret (match autoUpdate s with Some false => false | _ => true end).

Definition getUpdateCooldown : M Z :=
  s <- getSettings ;;
  ret (Js.num_or (updateCooldown s) (60 * 60 * 1000)).

Definition exportConfig : M ConfigDoc := readConfig.

(** [importConfig(configData)]: [None] is an argument that is not an
    object (or is [null]). *)
Definition importConfig (configData : option StoredDoc) : M bool :=
  try_catch
    (match configData with
     | Some d => writeConfig (spread getDefaultConfig d) ;; ret true
     | None => ret false
     end)
    (fun e =>
       emit (EvConsoleWarn "Warning: Could not import config:" e) ;;
       ret false).

(** [new Config()] *)
Definition new : M unit := ensureConfigExists.

End Config.

(** ** The [semver] package *)

(** Modelled from the spec: [semver.lt], the comparison the updater imports
    from the npm package [semver], whose sources are not part of the
    repository.  The spec calls it semantic-version ordering; the model
    follows the package's strict mode: a version is
    [v?MAJOR.MINOR.PATCH(-PRERELEASE)?(+BUILD)?] with numeric parts free of
    leading zeros, versions are ordered by the numeric triple, then a
    version with a prerelease comes before the same triple without one, and
    prerelease identifiers are compared one by one (numbers below
    alphanumerics, numbers by value, the others by character codes).
    Numeric prerelease identifiers are exact naturals here, where the
    package converts them to floating-point numbers. *)
Module Semver.

Inductive Ident : Type :=
| Numeric (n : N)
| Alnum (s : string).

Record SemVer : Type := mkSemVer {
  major : N;
  minor : N;
  patch : N;
  prerelease : list Ident
}.

Definition MAX_LENGTH : nat := 256.
Definition MAX_SAFE_INTEGER : N := 9007199254740991.

Definition is_digit (c : ascii) : bool :=
  let n := N_of_ascii c in (48 <=? n)%N && (n <=? 57)%N.

Definition is_letter (c : ascii) : bool :=
  let n := N_of_ascii c in
  ((65 <=? n)%N && (n <=? 90)%N) || ((97 <=? n)%N && (n <=? 122)%N).

(** [[0-9A-Za-z-]] *)
Definition is_idchar (c : ascii) : bool :=
  is_digit c || is_letter c || Ascii.eqb c "-".

Definition is_space (c : ascii) : bool :=
  let n := N_of_ascii c in ((9 <=? n)%N && (n <=? 13)%N) || (n =? 32)%N.

Fixpoint drop_spaces (l : list ascii) : list ascii :=
  match l with
  | c :: t => if is_space c then drop_spaces t else l
  | [] => []
  end.

(** [String.prototype.trim] on ASCII white space. *)
Definition trim (l : list ascii) : list ascii :=
  rev (drop_spaces (rev (drop_spaces l))).

(** The value of a run of decimal digits. *)
Definition digits_value (l : list ascii) : N :=
  fold_left (fun acc c => (acc * 10 + (N_of_ascii c - 48))%N) l 0%N.

(** [0|[1-9]\d*] *)
Definition numeric_identifier (l : list ascii) : option N :=
  match l with
  | [] => None
  | c :: t =>
      if forallb is_digit l
         && (negb (Ascii.eqb c "0") || (List.length t =? 0)%nat)
      then Some (digits_value l)
      else None
  end.

(** Cut at the first [sep]; the second part is [None] when there is none. *)
Fixpoint break_at (sep : ascii) (l : list ascii)
  : list ascii * option (list ascii) :=
  match l with
  | [] => ([], None)
  | c :: t =>
      if Ascii.eqb c sep then ([], Some t)
      else let (a, b) := break_at sep t in (c :: a, b)
  end.

(** [String.prototype.split(sep)] *)
Fixpoint split_on (sep : ascii) (l : list ascii) : list (list ascii) :=
  match l with
  | [] => [[]]
  | c :: t =>
      if Ascii.eqb c sep then [] :: split_on sep t
      else match split_on sep t with
           | h :: r => (c :: h) :: r
           | [] => [[c]]
           end
  end.

(** One prerelease identifier: [0|[1-9]\d*|\d*[a-zA-Z-][a-zA-Z0-9-]*];
    a run of digits becomes a number. *)
Definition prerelease_identifier (l : list ascii) : option Ident :=
  match l with
  | [] => None
  | _ :: _ =>
      if forallb is_digit l then option_map Numeric (numeric_identifier l)
      else if forallb is_idchar l then Some (Alnum (string_of_list_ascii l))
      else None
  end.

Fixpoint all_some {A : Type} (l : list (option A)) : option (list A) :=
  match l with
  | [] => Some []
  | Some a :: t => option_map (cons a) (all_some t)
  | None :: _ => None
  end.

(** [[0-9A-Za-z-]+(\.[0-9A-Za-z-]+)*] *)
Definition valid_build (l : list ascii) : bool :=
  forallb (fun id => negb (List.length id =? 0)%nat && forallb is_idchar id)
          (split_on "." l).

(** Modelled from the spec: [new SemVer(version)] of the [semver] package
    in strict mode; [None] is its [TypeError]. *)
Definition parse (version : string) : option SemVer :=
  if (MAX_LENGTH <? String.length version)%nat then None else
  let s := trim (list_ascii_of_string version) in
  let s := match s with
           | c :: t => if Ascii.eqb c "v" then t else s
           | [] => s
           end in
  let (mp, build) := break_at "+" s in
  let (main, pre) := break_at "-" mp in
  if match build with Some b => valid_build b | None => true end then
    match all_some (map numeric_identifier (split_on "." main)) with
    | Some [ma; mi; pa] =>
        if (ma <=? MAX_SAFE_INTEGER)%N && (mi <=? MAX_SAFE_INTEGER)%N
           && (pa <=? MAX_SAFE_INTEGER)%N
        then
          match pre with
          | None => Some (mkSemVer ma mi pa [])
          | Some p =>
              option_map (mkSemVer ma mi pa)
                         (all_some (map prerelease_identifier
                                        (split_on "." p)))
          end
        else None
    | _ => None
    end
  else None.

Definition compareIdentifiers (a b : Ident) : comparison :=
  match a, b with
  | Numeric x, Numeric y => (x ?= y)%N
  | Numeric _, Alnum _ => Lt
  | Alnum _, Numeric _ => Gt
  | Alnum x, Alnum y => String.compare x y
  end.

Definition compareMain (a b : SemVer) : comparison :=
  match (major a ?= major b)%N with
  | Eq => match (minor a ?= minor b)%N with
          | Eq => (patch a ?= patch b)%N
          | c => c
          end
  | c => c
  end.

(** The loop of [comparePre]: a shorter list that is a prefix of the
    other comes first. *)
Fixpoint compareIdents (a b : list Ident) : comparison :=
  match a, b with
  | [], [] => Eq
  | _ :: _, [] => Gt
  | [], _ :: _ => Lt
  | x :: a', y :: b' =>
      match compareIdentifiers x y with
      | Eq => compareIdents a' b'
      | c => c
      end
  end.

Definition comparePre (a b : SemVer) : comparison :=
  match prerelease a, prerelease b with
  | _ :: _, [] => Lt
  | [], _ :: _ => Gt
  | [], [] => Eq
  | pa, pb => compareIdents pa pb
  end.

(** Modelled from the spec: [SemVer.compare] of the [semver] package, the
    triple first and the prerelease next. *)
Definition compare (a b : SemVer) : comparison :=
  match compareMain a b with
  | Eq => comparePre a b
  | c => c
  end.

(** Modelled from the spec: [semver.lt(a, b)] of the [semver] package;
    [undefined] or an invalid version makes the [SemVer] constructor
    throw. *)
Definition lt (a b : option string) : Outcome bool :=
  match a with
  | None => Throw "Invalid version. Must be a string."
  | Some sa =>
      match parse sa with
      | None => Throw ("Invalid Version: " ++ sa)%string
      | Some va =>
          match b with
          | None => Throw "Invalid version. Must be a string."
          | Some sb =>
              match parse sb with
              | None => Throw ("Invalid Version: " ++ sb)%string
              | Some vb =>
                  Return (match compare va vb with
                          | Lt => true
                          | _ => false
                          end)
              end
          end
      end
  end.

End Semver.

(** ** class Logger *)

(** [lib/logger.js] appends a line to [updater.log] and prints to the
    console; neither touches [config.json].  A call is kept in the trace. *)
Module Logger.

Definition log (lvl : Level) (message : string) (args : list string)
  : M unit :=
  emit (EvLog lvl message args).

Definition debug := log Debug.
Definition info := log Info.
Definition warn := log Warn.
Definition error := log Error.

End Logger.

(** ** [child_process] and [https] *)

Module ChildProcess.

(** [execSync(`${commandName} --version`, { timeout: 5000 })] *)
Definition execSync_version (cmd : string) : M string :=
  emit (EvExec cmd) ;;
  wait ;;
  w <- get_world ;;
  match tool w with
  | ExecThrows msg => throw msg
  | ExecStdout out => ret out
  end.

(** [execSync(`npm install -g ${spec}`)] *)
Definition execSync_install (spec : string) : M string :=
  emit (EvExec ("npm install -g " ++ spec)%string) ;;
  wait ;;
  w <- get_world ;;
  match npm w spec with
  | NpmThrows msg => throw msg
  | NpmInstalled out tool_after => set_tool tool_after ;; ret out
  end.

End ChildProcess.

(** ** The regular expression of [getCurrentVersion] *)

Module Regex.

(** The longest run of digits at the head, and the rest. *)
Fixpoint digits (l : list ascii) : list ascii * list ascii :=
  match l with
  | c :: t =>
      if Semver.is_digit c then let (d, r) := digits t in (c :: d, r)
      else ([], l)
  | [] => ([], [])
  end.

(** [\d+\.] at the head. *)
Definition digits_dot (l : list ascii) : option (list ascii * list ascii) :=
  match digits l with
  | ((_ :: _) as d, dot :: r) =>
      if Ascii.eqb dot "." then Some (d ++ ["."%char], r) else None
  | _ => None
  end.

(** [\d+\.\d+\.\d+] matched at the head of [l]. *)
Definition triple_here (l : list ascii) : option (list ascii) :=
  match digits_dot l with
  | Some (a, r1) =>
      match digits_dot r1 with
      | Some (b, r2) =>
          match digits r2 with
          | ((_ :: _) as c, _) => Some (a ++ b ++ c)
          | _ => None
          end
      | None => None
      end
  | None => None
  end.

(** The leftmost match of [\d+\.\d+\.\d+] in [l]. *)
Fixpoint first_triple (l : list ascii) : option (list ascii) :=
  match triple_here l with
  | Some m => Some m
  | None =>
      match l with
      | _ :: t => first_triple t
      | [] => None
      end
  end.

(** [result.match(/(\d+\.\d+\.\d+)/)], group 1, or [null]. *)
Definition match_version (result : string) : option string :=
  option_map string_of_list_ascii
             (first_triple (list_ascii_of_string result)).

End Regex.

(** ** class Updater *)

Module Updater.

Record t : Type := mk {
  packageName : string;
  commandName : string;
  updateCooldown : Z
}.

(** [new Updater(packageName, commandName)].  The [Logger] constructor
    creates the same directory as [Config] does, after it, and adds
    nothing to the state of the config store. *)
Definition new (packageName commandName : string) : M t :=
  Config.new ;;
  ret (mk packageName commandName (60 * 60 * 1000)).

Section Methods.

Variable this : t.

Definition getCurrentVersion : M (option string) :=
  try_catch
    (result <- ChildProcess.execSync_version
                 (commandName this ++ " --version")%string ;;
     ret (Regex.match_version result))
    (fun e =>
       Logger.debug ("Could not get current version: " ++ e)%string [] ;;
       ret None).

Definition registry_url : string :=
  ("https://registry.npmjs.org/" ++ packageName this ++ "/latest")%string.

(** Resolves to [packageInfo.version], which is [undefined] ([None])
    when the body has no such field. *)
Definition getLatestVersion : M (option string) :=
  emit (EvHttpGet registry_url) ;;
  wait ;;
  w <- get_world ;;
  match registry w with
  | HttpError msg =>
      throw ("Failed to fetch latest version: " ++ msg)%string
  | HttpTimeout => throw "Request timeout while fetching latest version"
  | HttpEnd BadJson => throw "Failed to parse npm registry response"
  | HttpEnd (JsonObject version) => ret version
  end.

Definition isWithinCooldown : M bool :=
  lastCheck <- Config.getLastUpdateCheck ;;
  if Js.not_num lastCheck then ret false
  else
    now <- date_now ;;
    ret (now - Js.num lastCheck <? updateCooldown this).

Definition semver_lt (a b : option string) : M bool :=
  fun w => (Semver.lt a b, w).

(** A nullable string inside a template literal. *)
Definition str (s : option string) : string :=
  match s with Some v => v | None => "undefined" end.

Definition checkForUpdate : M bool :=
  try_catch
    (cooling <- isWithinCooldown ;;
     if cooling then
       Logger.debug "Skipping update check (within cooldown period)" [] ;;
       ret false
     else
       currentVersion <- getCurrentVersion ;;
       latestVersion <- getLatestVersion ;;
       if Js.not_str currentVersion then
         Logger.warn (commandName this ++ " not found, update needed")%string
                     [] ;;
         ret true
       else
         needsUpdate <- semver_lt currentVersion latestVersion ;;
         now <- date_now ;;
         Config.setLastUpdateCheck now ;;
         (if needsUpdate then
            Logger.info ("Update available: " ++ str currentVersion
                         ++ " -> " ++ str latestVersion)%string [] ;;
            Config.addVersionHistory (str currentVersion)
                                     (str latestVersion)
          else
            Logger.debug (commandName this ++ " is up to date ("
                          ++ str currentVersion ++ ")")%string []) ;;
         ret needsUpdate)
    (fun e =>
       Logger.error "Error checking for updates:" [e] ;;
       ret false).

Definition performUpdate : M bool :=
  try_catch
    (Logger.info ("Updating " ++ packageName this ++ "...")%string [] ;;
     result <- ChildProcess.execSync_install (packageName this) ;;
     Logger.debug "Update output:" [result] ;;
     now <- date_now ;;
     Config.setLastUpdateTime now ;;
     newVersion <- getCurrentVersion ;;
     if Js.not_str newVersion then throw "Update verification failed"
     else
       Logger.info ("Successfully updated to version "
                    ++ str newVersion)%string [] ;;
       ret true)
    (fun e =>
       Logger.error "Update failed:" [e] ;;
       throw e).

(** The message of the error that reports a missing rollback target. *)
Definition NoRollbackTarget : string :=
  "No previous version available for rollback".

Definition rollbackToPreviousVersion : M bool :=
  try_catch
    (versionHistory <- Config.getVersionHistory ;;
     if Z.of_nat (List.length versionHistory) <? 2 then
       throw NoRollbackTarget
     else
       match Js.index versionHistory
                      (Z.of_nat (List.length versionHistory) - 2) with
       | Some previousVersion =>
           Logger.info ("Rolling back to version "
                        ++ from previousVersion)%string [] ;;
           ChildProcess.execSync_install
             (packageName this ++ "@" ++ from previousVersion)%string ;;
           Logger.info ("Successfully rolled back to "
                        ++ from previousVersion)%string [] ;;
           ret true
       | None =>
           throw "Cannot read properties of undefined (reading 'from')"
       end)
    (fun e =>
       Logger.error "Rollback failed:" [e] ;;
       throw e).

(** [await this.checkForUpdate() && await this.performUpdate()] *)
Definition forceUpdate : M bool :=
  Config.setLastUpdateCheck 0 ;;
  needed <- checkForUpdate ;;
  if needed then performUpdate else ret false.

End Methods.

End Updater.

(** ** [GeminiUpdaterCLI.checkAndUpdate] ([bin/gemini-cli-updater.js]) *)

Definition checkAndUpdate (updater : Updater.t) : M unit :=
  try_catch
    (needsUpdate <- Updater.checkForUpdate updater ;;
     if needsUpdate then Updater.performUpdate updater ;; ret tt
     else ret tt)
    (fun e => Logger.warn "Update error:" [e]).

(** * Vocabulary of the properties *)

(** A subprocess or a network request. *)
Definition is_external (e : Event) : bool :=
  match e with
  | EvExec _ | EvHttpGet _ => true
  | _ => false
  end.

(** An operation that changes the config directory or [config.json]. *)
Definition is_config_change (e : Event) : bool :=
  match e with
  | EvWriteConfig _ | EvUnlink | EvMkdir => true
  | _ => false
  end.

(** The registry lookup ended in one of the three rejections of
    [getLatestVersion]. *)
Definition resolver_failure (r : HttpResult) : bool :=
  match r with
  | HttpError _ | HttpTimeout | HttpEnd BadJson => true
  | HttpEnd (JsonObject _) => false
  end.

(** The calls that leave the process or change the config store, in the
    order they were made. *)
Definition effects (evs : list Event) : list Event :=
  filter (fun e => is_external e || is_config_change e) evs.

(** The document a read of the current disk state yields. *)
Definition stored (w : World) : ConfigDoc :=
  match file w with
  | Some (Json d) =>
      if dir_exists w then Config.spread Config.getDefaultConfig d
      else Config.getDefaultConfig
  | _ => Config.getDefaultConfig
  end.

(** The gate as a function of the stored timestamp and the clock. *)
Definition cooling (u : Updater.t) (w : World) : bool :=
  match lastUpdateCheck (stored w) with
  | Some last =>
      if last =? 0 then false else clock w - last <? Updater.updateCooldown u
  | None => false
  end.

(** Precedence as the semantic-versioning rules word it: the first
    difference among major, minor and patch decides; with equal triples a
    version with a prerelease precedes the one without; two prereleases are
    compared identifier by identifier, numbers by value, the others in
    ASCII order, a number before a non-number, and a list that runs out
    first precedes the longer one. *)
Module SemverSpec.

Import Semver.

Inductive ascii_order : string -> string -> Prop :=
| ao_shorter c t : ascii_order EmptyString (String c t)
| ao_head c d s t :
    (N_of_ascii c < N_of_ascii d)%N -> ascii_order (String c s) (String d t)
| ao_tail c s t : ascii_order s t -> ascii_order (String c s) (String c t).

Inductive ident_before : Ident -> Ident -> Prop :=
| ib_numbers x y : (x < y)%N -> ident_before (Numeric x) (Numeric y)
| ib_number_first x s : ident_before (Numeric x) (Alnum s)
| ib_ascii s t : ascii_order s t -> ident_before (Alnum s) (Alnum t).

Inductive idents_before : list Ident -> list Ident -> Prop :=
| isb_shorter y b : idents_before [] (y :: b)
| isb_head x y a b : ident_before x y -> idents_before (x :: a) (y :: b)
| isb_tail x a b : idents_before a b -> idents_before (x :: a) (x :: b).

Definition same_triple (a b : SemVer) : Prop :=
  major a = major b /\ minor a = minor b /\ patch a = patch b.

Inductive precedes (a b : SemVer) : Prop :=
| by_major : (major a < major b)%N -> precedes a b
| by_minor : major a = major b -> (minor a < minor b)%N -> precedes a b
| by_patch :
    major a = major b -> minor a = minor b -> (patch a < patch b)%N ->
    precedes a b
| prerelease_first :
    same_triple a b -> prerelease a <> [] -> prerelease b = [] ->
    precedes a b
| by_prerelease :
    same_triple a b -> prerelease a <> [] -> prerelease b <> [] ->
    idents_before (prerelease a) (prerelease b) -> precedes a b.

End SemverSpec.

(** * Stores and machines used as examples *)



(** A disk on which the directory is there and [config.json] is not. *)
Definition missing_file_disk : World :=
  mkWorld true None true 1700000000000 50
          (ExecStdout "1.2.3") (HttpEnd (JsonObject (Some "1.2.3")))
          (fun _ => NpmThrows "npm ERR!") [].

(** A backup with eleven history entries and no [settings] key. *)
Definition long_backup : StoredDoc :=
  mkStored (Some None) (Some None)
           (Some (Some (repeat (mkEntry "1.0.0" "1.0.1" 1690000000000 true)
                               11)))
           None.

(** A store whose history is full: ten entries under the default cap. *)
Definition full_history_disk : World :=
  mkWorld true
          (Some (Json (mkStored
                         (Some (Some 1700000000000)) (Some None)
                         (Some (Some (map (fun n => mkEntry "1.0.0" "1.0.1"
                                                            n true)
                                          [1; 2; 3; 4; 5; 6; 7; 8; 9; 10])))
                         None)))
          true 1700003600000 50
          (ExecStdout "1.0.1") (HttpEnd (JsonObject (Some "1.0.2")))
          (fun _ => NpmThrows "npm ERR!") [].

(** A store last checked two hours ago, with a registry that times out. *)
Definition registry_down : World :=
  mkWorld true
          (Some (Json (mkStored (Some (Some 1700000000000)) (Some None)
                                (Some (Some [])) None)))
          true 1700007200000 10000
          (ExecStdout "0.1.5") HttpTimeout
          (fun _ => NpmThrows "npm ERR!") [].

(** A store whose settings ask for a two-hour cooldown, last checked ninety
    minutes ago. *)
Definition two_hour_cooldown : World :=
  mkWorld true
          (Some (Json (mkStored
                         (Some (Some 1700000000000)) (Some None)
                         (Some (Some []))
                         (Some (Some (mkSettings (Some 7200000) (Some 10)
                                                 (Some true) (Some true)))))))
          true 1700005400000 40
          (ExecStdout "0.1.4") (HttpEnd (JsonObject (Some "0.1.5")))
          (fun _ => NpmThrows "npm ERR!") [].

(** The updater the command-line entry point constructs. *)
Definition gemini : Updater.t :=
  Updater.mk "@google/gemini-cli" "gemini" (60 * 60 * 1000).

(** A store last checked two hours ago on a machine where the wrapped tool
    is not installed; the registry answers. *)
Definition tool_missing : World :=
  mkWorld true
          (Some (Json (mkStored (Some (Some 1700000000000)) (Some None)
                                (Some (Some [])) None)))
          true 1700007200000 40
          (ExecThrows "/bin/sh: gemini: command not found")
          (HttpEnd (JsonObject (Some "0.1.5")))
          (fun _ => NpmThrows "npm ERR!") [].

(** A store last checked two hours ago, tool and registry at "0.1.5". *)
Definition up_to_date : World :=
  mkWorld true
          (Some (Json (mkStored (Some (Some 1700000000000)) (Some None)
                                (Some (Some [])) None)))
          true 1700007200000 40
          (ExecStdout "0.1.5") (HttpEnd (JsonObject (Some "0.1.5")))
          (fun _ => NpmThrows "npm ERR!") [].

(** A store last checked two hours ago; the tool reports 1.2.3 and the
    registry 1.10.0. *)
Definition minor_behind : World :=
  mkWorld true
          (Some (Json (mkStored (Some (Some 1700000000000)) (Some None)
                                (Some (Some [])) None)))
          true 1700007200000 40
          (ExecStdout "gemini 1.2.3") (HttpEnd (JsonObject (Some "1.10.0")))
          (fun _ => NpmInstalled "added 1 package" (ExecStdout "1.10.0")) [].

(** A store with three updates on record; npm can install any version. *)
Definition three_updates : World :=
  mkWorld true
          (Some (Json (mkStored
                         (Some (Some 1700000000000))
                         (Some (Some 1700000001000))
                         (Some (Some [mkEntry "0.1.1" "0.1.2" 1680000000000
                                              true;
                                      mkEntry "0.1.2" "0.1.3" 1690000000000
                                              true;
                                      mkEntry "0.1.3" "0.1.4" 1700000000000
                                              true]))
                         None)))
          true 1700007200000 40
          (ExecStdout "0.1.4") (HttpEnd (JsonObject (Some "0.1.4")))
          (fun _ => NpmInstalled "changed 1 package" (ExecStdout "0.1.2")) [].

(** A store checked one minute ago. *)
Definition just_checked : World :=
  mkWorld true
          (Some (Json (mkStored (Some (Some 1700007140000)) (Some None)
                                (Some (Some [])) None)))
          true 1700007200000 40
          (ExecStdout "0.1.4") (HttpEnd (JsonObject (Some "0.1.5")))
          (fun _ => NpmInstalled "changed 1 package" (ExecStdout "0.1.5")) [].

(** The store of [up_to_date] in a directory that refuses writes. *)
Definition read_only_up_to_date : World :=
  mkWorld true
          (Some (Json (mkStored (Some (Some 1700000000000)) (Some None)
                                (Some (Some [])) None)))
          false 1700007200000 40
          (ExecStdout "0.1.5") (HttpEnd (JsonObject (Some "0.1.5")))
          (fun _ => NpmThrows "npm ERR!") [].

(** A writable store last checked two hours ago; the tool prints a
    date-like version, 2024.01.15, and the registry answers 2024.2.1. *)
Definition date_versioned : World :=
  mkWorld true
          (Some (Json (mkStored (Some (Some 1700000000000)) (Some None)
                                (Some (Some [])) None)))
          true 1700007200000 40
          (ExecStdout "gemini 2024.01.15")
          (HttpEnd (JsonObject (Some "2024.2.1")))
          (fun _ => NpmThrows "npm ERR!") [].

(** The tool is not installed and the registry answers with a JSON body
    that has no [version] field, such as [{ "error": "Not found" }]. *)
Definition no_version_field : World :=
  mkWorld true
          (Some (Json (mkStored (Some (Some 1700000000000)) (Some None)
                                (Some (Some [])) None)))
          true 1700007200000 40
          (ExecThrows "/bin/sh: gemini: command not found")
          (HttpEnd (JsonObject None))
          (fun _ => NpmThrows "npm ERR!") [].

(** The tool is installed and the registry body has no [version] field. *)
Definition no_version_field_installed : World :=
  mkWorld true
          (Some (Json (mkStored (Some (Some 1700000000000)) (Some None)
                                (Some (Some [])) None)))
          true 1700007200000 40
          (ExecStdout "0.1.5") (HttpEnd (JsonObject None))
          (fun _ => NpmThrows "npm ERR!") [].

(** The store of [just_checked] in a directory that refuses writes. *)
Definition read_only_just_checked : World :=
  mkWorld true
          (Some (Json (mkStored (Some (Some 1700007140000)) (Some None)
                                (Some (Some [])) None)))
          false 1700007200000 40
          (ExecStdout "0.1.4") (HttpEnd (JsonObject (Some "0.1.5")))
          (fun _ => NpmInstalled "changed 1 package" (ExecStdout "0.1.5")) [].

(** A store last checked two hours ago; the tool reports 2.0.0-beta and the
    registry 2.0.0. *)
Definition beta_installed : World :=
  mkWorld true
          (Some (Json (mkStored (Some (Some 1700000000000)) (Some None)
                                (Some (Some [])) None)))
          true 1700007200000 40
          (ExecStdout "2.0.0-beta") (HttpEnd (JsonObject (Some "2.0.0")))
          (fun _ => NpmInstalled "changed 1 package" (ExecStdout "2.0.0")) [].

(** One update on record, in a directory that refuses writes; the tool is
    at 0.1.4 and the registry at 0.1.5. *)
Definition read_only_behind : World :=
  mkWorld true
          (Some (Json (mkStored (Some (Some 1700000000000)) (Some None)
                                (Some (Some [mkEntry "0.1.3" "0.1.4"
                                                     1690000000000 true]))
                                None)))
          false 1700007200000 40
          (ExecStdout "0.1.4") (HttpEnd (JsonObject (Some "0.1.5")))
          (fun _ => NpmInstalled "changed 1 package" (ExecStdout "0.1.5")) [].

(** A writable store whose settings carry [maxVersionHistory: -1]; the tool
    is at 0.1.4 and the registry at 0.1.5. *)
Definition negative_cap : World :=
  mkWorld true
          (Some (Json (mkStored
                         (Some (Some 1700000000000)) (Some None)
                         (Some (Some []))
                         (Some (Some (mkSettings (Some 3600000) (Some (-1))
                                                 (Some true) (Some true)))))))
          true 1700007200000 40
          (ExecStdout "0.1.4") (HttpEnd (JsonObject (Some "0.1.5")))
          (fun _ => NpmInstalled "changed 1 package" (ExecStdout "0.1.5")) [].

(** * Properties *)

(** ** Proof tools *)

Ltac unfold_fs :=
  unfold Fs.existsSync_dir, Fs.existsSync_file, Fs.readFileSync,
    Fs.writeFileSync, Fs.mkdirSync, Fs.unlinkSync, json_parse in *.

Ltac unfold_monad :=
  unfold try_catch, bind, ret, throw, emit, wait, date_now, get_world,
    set_tool in *.

Ltac unfold_config :=
  unfold Config.getLastUpdateCheck, Config.setLastUpdateCheck,
    Config.getLastUpdateTime, Config.setLastUpdateTime,
    Config.getVersionHistory, Config.addVersionHistory,
    Config.importConfig, Config.updateSettings, Config.getSettings,
    Config.getUpdateCooldown, Config.new, Config.ensureConfigExists,
    Config.readConfig, Config.writeConfig in *.

Ltac unfold_updater :=
  unfold Updater.checkForUpdate, Updater.performUpdate, Updater.forceUpdate,
    Updater.rollbackToPreviousVersion, Updater.isWithinCooldown,
    Updater.getCurrentVersion, Updater.getLatestVersion, Updater.semver_lt,
    ChildProcess.execSync_version, ChildProcess.execSync_install,
    Logger.debug, Logger.info, Logger.warn, Logger.error, Logger.log in *.

Ltac unfold_all := unfold_updater; unfold_config; unfold_fs; unfold_monad.

(** Case analysis on the innermost scrutinee the goal is stuck on. *)
Ltac split_match :=
  match goal with
  | |- context [match ?x with _ => _ end] =>
      lazymatch x with
      | context [match _ with _ => _ end] => fail
      | _ => destruct x eqn:?
      end
  end.

(** ** Arrays *)

Section Slice.

Context {A : Type}.

Lemma slice_from_last (n : Z) (l : list A) :
  0 < n -> n <= Z.of_nat (List.length l) ->
  Js.slice_from (- n) l = skipn (List.length l - Z.to_nat n) l.
Proof.
  intros Hpos Hle. unfold Js.slice_from.
  destruct (- n <? 0) eqn:Hneg; [ | apply Z.ltb_ge in Hneg; lia ].
  f_equal. lia.
Qed.

Lemma slice_from_length (n : Z) (l : list A) :
  0 < n -> n <= Z.of_nat (List.length l) ->
  Z.of_nat (List.length (Js.slice_from (- n) l)) = n.
Proof.
  intros Hpos Hle. rewrite slice_from_last by assumption.
  rewrite length_skipn. lia.
Qed.

Lemma skipn_last_of_app (k : nat) (l : list A) (x : A) :
  (k <= List.length l)%nat ->
  skipn k (l ++ [x]) = skipn k l ++ [x].
Proof.
  revert k. induction l as [ | a l IH ]; intros [ | k ] Hk; simpl in *;
    try reflexivity; try lia.
  apply IH. lia.
Qed.

Lemma index_in_range (l : list A) (i : Z) :
  0 <= i < Z.of_nat (List.length l) ->
  exists x, Js.index l i = Some x.
Proof.
  intros Hi. unfold Js.index.
  destruct (i <? 0) eqn:Hneg; [ apply Z.ltb_lt in Hneg; lia | ].
  destruct (nth_error l (Z.to_nat i)) as [ x | ] eqn:Hx; [ now exists x | ].
  apply nth_error_None in Hx. lia.
Qed.

End Slice.

(** ** The config store *)

Module ConfigFacts.

Lemma readConfig_value (w : World) :
  fst (Config.readConfig w) = Return (stored w).
Proof.
  unfold stored. destruct w as [d f wr c l tl rg np tr].
  unfold_config; unfold_fs; unfold_monad; cbn.
  destruct f as [ [ | sd ] | ]; destruct d; reflexivity.
Qed.

(** A read changes nothing but the trace, and has no effect outside. *)
Lemma readConfig_frame (w : World) :
  let w' := snd (Config.readConfig w) in
  dir_exists w' = dir_exists w /\ file w' = file w /\
  writable w' = writable w /\ clock w' = clock w /\
  latency w' = latency w /\ tool w' = tool w /\
  registry w' = registry w /\ npm w' = npm w /\
  exists evs, trace w' = trace w ++ evs /\ effects evs = [].
Proof.
  destruct w as [d f wr c l tl rg np tr].
  unfold_config; unfold_fs; unfold_monad; cbn.
  destruct f as [ [ | sd ] | ]; destruct d; cbn; repeat split;
    try (exists []; rewrite app_nil_r; repeat split; reflexivity).
  eexists; repeat split; reflexivity.
Qed.

(** What a successful write leaves on disk reads back as it was
    written. *)
Lemma writeConfig_then_read (c : ConfigDoc) (w : World) :
  writable w = true -> dir_exists w = true ->
  fst (Config.writeConfig c w) = Return tt /\
  fst (Config.readConfig (snd (Config.writeConfig c w))) = Return c.
Proof.
  intros Hw Hd. destruct w as [d f wr cl l tl rg np tr]. cbn in Hw, Hd.
  subst. unfold_config; unfold_fs; unfold_monad; cbn.
  destruct c; split; reflexivity.
Qed.

End ConfigFacts.

(** *** Reading never fails, and never writes *)




(** *** The history cap *)

Module HistoryFacts.

Lemma capped_is_tail (c : ConfigDoc) (e : VersionEntry) :
  0 < Config.maxHistory c ->
  let pushed := Js.arr_or (versionHistory c) ++ [e] in
  Config.capped c e
  = skipn (List.length pushed - Z.to_nat (Config.maxHistory c)) pushed.
Proof.
  intros Hpos pushed. unfold Config.capped. fold pushed.
  destruct (Config.maxHistory c <? Z.of_nat (List.length pushed)) eqn:Hlt.
  - apply Z.ltb_lt in Hlt. apply slice_from_last; lia.
  - apply Z.ltb_ge in Hlt.
    replace (List.length pushed - Z.to_nat (Config.maxHistory c))%nat
      with 0%nat by lia.
    reflexivity.
Qed.

Lemma capped_length (c : ConfigDoc) (e : VersionEntry) :
  0 < Config.maxHistory c ->
  Z.of_nat (List.length (Config.capped c e)) <= Config.maxHistory c.
Proof.
  intros Hpos. rewrite capped_is_tail by assumption.
  rewrite length_skipn. lia.
Qed.

(** With a positive cap the entry just pushed is the last one kept. *)
Lemma capped_last (c : ConfigDoc) (e : VersionEntry) :
  0 < Config.maxHistory c ->
  exists kept, Config.capped c e = kept ++ [e].
Proof.
  intros Hpos. rewrite capped_is_tail by assumption.
  set (old := Js.arr_or (versionHistory c)).
  exists (skipn (List.length (old ++ [e]) - Z.to_nat (Config.maxHistory c))
                old).
  apply skipn_last_of_app. rewrite length_app. simpl. lia.
Qed.

(** What is on disk after [addVersionHistory] on a writable store. *)
Lemma addVersionHistory_stored (fromV toV : string) (w : World) :
  writable w = true -> dir_exists w = true ->
  let c := stored w in
  fst (Config.readConfig (snd (Config.addVersionHistory fromV toV w)))
  = Return (mkConfig (lastUpdateCheck c) (lastUpdateTime c)
                     (Some (Config.capped c
                                          (mkEntry fromV toV (clock w) true)))
                     (settings c)).
Proof.
  intros Hw Hd. unfold stored.
  destruct w as [d f wr cl l tl rg np tr]. cbn in Hw, Hd. subst.
  unfold_config; unfold_fs; unfold_monad; cbn.
  destruct f as [ [ | sd ] | ]; reflexivity.
Qed.

(** The scalar setters write the history and the settings back as read. *)
Lemma setLastUpdateCheck_keeps_history (ts : Z) (w : World) :
  fst (Config.getVersionHistory (snd (Config.setLastUpdateCheck ts w)))
  = fst (Config.getVersionHistory w) /\
  fst (Config.getSettings (snd (Config.setLastUpdateCheck ts w)))
  = fst (Config.getSettings w).
Proof.
  destruct w as [d f wr cl l tl rg np tr].
  unfold_config; unfold_fs; unfold_monad; cbn.
  destruct f as [ [ | sd ] | ]; destruct d; destruct wr; cbn;
    split; reflexivity.
Qed.

Lemma setLastUpdateTime_keeps_history (ts : Z) (w : World) :
  fst (Config.getVersionHistory (snd (Config.setLastUpdateTime ts w)))
  = fst (Config.getVersionHistory w) /\
  fst (Config.getSettings (snd (Config.setLastUpdateTime ts w)))
  = fst (Config.getSettings w).
Proof.
  destruct w as [d f wr cl l tl rg np tr].
  unfold_config; unfold_fs; unfold_monad; cbn.
  destruct f as [ [ | sd ] | ]; destruct d; destruct wr; cbn;
    split; reflexivity.
Qed.

End HistoryFacts.

(** C4, as stated, fails: [importConfig] writes an eleven-entry history
    next to the default [maxVersionHistory] of 10, and [updateSettings]
    lowers the cap under a history it leaves as it is. *)
Lemma C4_import_writes_past_the_cap :
  let w1 := snd (Config.importConfig (Some long_backup) missing_file_disk) in
  let w2 := snd (Config.updateSettings
                   (Config.mkPatch None (Some (Some 3)) None None) w1) in
  fst (Config.importConfig (Some long_backup) missing_file_disk)
  = Return true /\
  (exists h s,
      fst (Config.getVersionHistory w1) = Return h /\
      fst (Config.getSettings w1) = Return s /\
      maxVersionHistory s = Some 10 /\
      Z.of_nat (List.length h) = 11) /\
  (exists h s,
      fst (Config.getVersionHistory w2) = Return h /\
      fst (Config.getSettings w2) = Return s /\
      maxVersionHistory s = Some 3 /\
      Z.of_nat (List.length h) = 11).
Proof.
  split; [ reflexivity | ].
  split; eexists; eexists; repeat split.
Qed.

(** C4, amended: after [addVersionHistory] has written the document, with
    a positive cap (the stored [maxVersionHistory], or 10 when that is
    missing or 0), the history holds at most cap entries: it is the tail of
    the old history followed by the new entry, the oldest entries dropped
    first, and the new entry, stamped with the current time and
    [success = true], is its last one.  The settings are written back as
    read, and the scalar setters write the history back as read. *)
Theorem C4_addVersionHistory_keeps_the_tail
  (w : World) (c : ConfigDoc) (fromV toV : string) :
  writable w = true -> dir_exists w = true ->
  fst (Config.readConfig w) = Return c ->
  0 < Config.maxHistory c ->
  let entry := mkEntry fromV toV (clock w) true in
  let pushed := Js.arr_or (versionHistory c) ++ [entry] in
  let w' := snd (Config.addVersionHistory fromV toV w) in
  exists h,
    fst (Config.getVersionHistory w') = Return h /\
    Z.of_nat (List.length h) <= Config.maxHistory c /\
    h = skipn (List.length pushed - Z.to_nat (Config.maxHistory c)) pushed /\
    (exists dropped kept, pushed = dropped ++ h /\ h = kept ++ [entry]) /\
    (forall s m, settings c = Some s -> maxVersionHistory s = Some m ->
       0 < m -> Z.of_nat (List.length h) <= m) /\
    fst (Config.getSettings w') = fst (Config.getSettings w) /\
    (forall ts,
       fst (Config.getVersionHistory (snd (Config.setLastUpdateCheck ts w')))
       = Return h /\
       fst (Config.getVersionHistory (snd (Config.setLastUpdateTime ts w')))
       = Return h).
Proof.
  intros Hw Hd Hc Hpos entry pushed w'.
  rewrite ConfigFacts.readConfig_value in Hc. injection Hc as Hc.
  pose proof (HistoryFacts.addVersionHistory_stored fromV toV w Hw Hd) as Hs.
  cbn zeta in Hs. rewrite Hc in Hs. fold entry w' in Hs.
  assert (Hh : fst (Config.getVersionHistory w')
               = Return (Config.capped c entry)).
  { unfold Config.getVersionHistory, bind.
    destruct (Config.readConfig w') as [o w''] eqn:Hr. cbn in Hs. subst o.
    reflexivity. }
  exists (Config.capped c entry). split; [ exact Hh | ].
  split; [ now apply HistoryFacts.capped_length | ].
  split; [ now apply HistoryFacts.capped_is_tail | ].
  split.
  { destruct (HistoryFacts.capped_last c entry Hpos) as [kept Hk].
    exists (firstn (List.length pushed - Z.to_nat (Config.maxHistory c))
                   pushed), kept.
    split; [ | exact Hk ].
    rewrite (HistoryFacts.capped_is_tail c entry Hpos).
    symmetry. apply firstn_skipn. }
  split.
  { intros s m Hset Hm Hmpos.
    pose proof (HistoryFacts.capped_length c entry Hpos) as Hlen.
    unfold Config.maxHistory, Js.num_or in Hlen. rewrite Hset, Hm in Hlen.
    destruct (m =? 0) eqn:Hz; [ apply Z.eqb_eq in Hz; lia | exact Hlen ]. }
  split.
  { unfold Config.getSettings, bind.
    destruct (Config.readConfig w') as [o w''] eqn:Hr. cbn in Hs. subst o.
    pose proof (ConfigFacts.readConfig_value w) as Hv.
    destruct (Config.readConfig w) as [o2 w2]. cbn in Hv. subst o2.
    rewrite Hc. reflexivity. }
  intros ts. split.
  - rewrite (proj1 (HistoryFacts.setLastUpdateCheck_keeps_history ts w')).
    exact Hh.
  - rewrite (proj1 (HistoryFacts.setLastUpdateTime_keeps_history ts w')).
    exact Hh.
Qed.

(** The amended C4 on a full history: the oldest entry goes, the new one
    comes last. *)
Lemma C4_addVersionHistory_keeps_the_tail_witness :
  exists h,
    fst (Config.getVersionHistory
           (snd (Config.addVersionHistory "1.0.1" "1.0.2" full_history_disk)))
    = Return h /\
    Z.of_nat (List.length h) <= 10 /\
    map timestamp h = [2; 3; 4; 5; 6; 7; 8; 9; 10; 1700003600000].
Proof.
  destruct (C4_addVersionHistory_keeps_the_tail
              full_history_disk (c := stored full_history_disk)
              "1.0.1" "1.0.2" eq_refl eq_refl eq_refl eq_refl)
    as (h & Hh & Hlen & Htail & _).
  exists h. split; [ exact Hh | ]. split; [ exact Hlen | ].
  rewrite Htail. reflexivity.
Defined.

(** ** The update decision core *)

Module UpdaterFacts.

Lemma digits_dot_nonempty (l a r : list ascii) :
  Regex.digits_dot l = Some (a, r) -> a <> [].
Proof.
  unfold Regex.digits_dot.
  destruct (Regex.digits l) as [ [ | x d ] [ | dot r' ] ]; try discriminate.
  destruct (Ascii.eqb dot "."); [ | discriminate ].
  intros H. injection H as <- _. discriminate.
Qed.

Lemma triple_here_nonempty (l m : list ascii) :
  Regex.triple_here l = Some m -> m <> [].
Proof.
  unfold Regex.triple_here.
  destruct (Regex.digits_dot l) as [ [a r1] | ] eqn:Ha; [ | discriminate ].
  destruct (Regex.digits_dot r1) as [ [b r2] | ]; [ | discriminate ].
  destruct (Regex.digits r2) as [ [ | c d3 ] r3 ]; [ discriminate | ].
  intros H. injection H as <-. apply digits_dot_nonempty in Ha.
  destruct a; [ congruence | discriminate ].
Qed.

Lemma first_triple_nonempty (l m : list ascii) :
  Regex.first_triple l = Some m -> m <> [].
Proof.
  induction l as [ | c l IH ].
  - cbn. discriminate.
  - cbn [Regex.first_triple].
    destruct (Regex.triple_here (c :: l)) eqn:H.
    + intros E. injection E as <-. now apply triple_here_nonempty in H.
    + exact IH.
Qed.

(** A digit or a dot. *)
Definition digit_or_dot (c : ascii) : Prop :=
  Semver.is_digit c = true \/ c = "."%char.

Lemma digits_split (l d r : list ascii) :
  Regex.digits l = (d, r) ->
  l = d ++ r /\ Forall digit_or_dot d.
Proof.
  revert d r. induction l as [ | c l IH ]; intros d r; simpl.
  - intros H. injection H as <- <-. split; [ reflexivity | constructor ].
  - destruct (Semver.is_digit c) eqn:Hc.
    + destruct (Regex.digits l) as [d' r'].
      intros H. injection H as <- <-.
      destruct (IH d' r' eq_refl) as [ -> Hd ].
      split; [ reflexivity | constructor; [ now left | exact Hd ] ].
    + intros H. injection H as <- <-. split; [ reflexivity | constructor ].
Qed.

Lemma digits_dot_split (l a r : list ascii) :
  Regex.digits_dot l = Some (a, r) ->
  l = a ++ r /\ Forall digit_or_dot a.
Proof.
  unfold Regex.digits_dot.
  destruct (Regex.digits l) as [d r0] eqn:Hd.
  apply digits_split in Hd. destruct Hd as [ -> Hd ].
  destruct d as [ | x d ]; [ discriminate | ].
  destruct r0 as [ | dot r0 ]; [ discriminate | ].
  destruct (Ascii.eqb dot ".") eqn:Hdot; [ | discriminate ].
  apply Ascii.eqb_eq in Hdot. subst dot.
  intros H. injection H as <- <-.
  change (x :: d ++ ["."%char]) with ((x :: d) ++ ["."%char]). split.
  - now rewrite <- app_assoc.
  - apply Forall_app. split; [ exact Hd | ].
    constructor; [ now right | constructor ].
Qed.

Lemma triple_here_split (l m : list ascii) :
  Regex.triple_here l = Some m ->
  (exists post, l = m ++ post) /\ Forall digit_or_dot m.
Proof.
  unfold Regex.triple_here.
  destruct (Regex.digits_dot l) as [ [a r1] | ] eqn:Ha; [ | discriminate ].
  destruct (Regex.digits_dot r1) as [ [b r2] | ] eqn:Hb; [ | discriminate ].
  destruct (Regex.digits r2) as [ c r3 ] eqn:Hc.
  apply digits_dot_split in Ha. destruct Ha as [ -> Ha ].
  apply digits_dot_split in Hb. destruct Hb as [ -> Hb ].
  apply digits_split in Hc. destruct Hc as [ -> Hc ].
  destruct c as [ | x c ]; [ discriminate | ].
  intros H. injection H as <-. split.
  - exists r3. now rewrite <- !app_assoc.
  - apply Forall_app. split; [ exact Ha | ].
    apply Forall_app. split; assumption.
Qed.

Lemma first_triple_split (l m : list ascii) :
  Regex.first_triple l = Some m ->
  (exists pre post, l = pre ++ m ++ post) /\ Forall digit_or_dot m.
Proof.
  induction l as [ | c l IH ].
  - cbn. discriminate.
  - cbn [Regex.first_triple].
    destruct (Regex.triple_here (c :: l)) as [ m' | ] eqn:H.
    + intros E. injection E as <-.
      apply triple_here_split in H. destruct H as [ [post Hpost] Hm ].
      split; [ exists [], post; exact Hpost | exact Hm ].
    + intros E. destruct (IH E) as [ (pre & post & Hl) Hm ].
      split; [ | exact Hm ].
      exists (c :: pre), post. now rewrite Hl.
Qed.

(** What the regular expression extracts is cut from the output and made of
    digits and dots only. *)
Lemma match_version_cut (out cur : string) :
  Regex.match_version out = Some cur ->
  (exists pre post,
      list_ascii_of_string out = pre ++ list_ascii_of_string cur ++ post) /\
  Forall digit_or_dot (list_ascii_of_string cur).
Proof.
  unfold Regex.match_version.
  destruct (Regex.first_triple (list_ascii_of_string out)) as [ m | ] eqn:H;
    [ | discriminate ].
  intros E. injection E as <-.
  rewrite list_ascii_of_string_of_list_ascii.
  now apply first_triple_split.
Qed.

(** [semver.lt] throws when the second version is [undefined]. *)
Lemma lt_undefined_throws (cur : string) :
  exists e, Semver.lt (Some cur) None = Throw e.
Proof.
  unfold Semver.lt. destruct (Semver.parse cur); eexists; reflexivity.
Qed.

(** A version the regular expression extracts is a truthy string. *)
Lemma match_version_truthy (out cur : string) :
  Regex.match_version out = Some cur -> Js.not_str (Some cur) = false.
Proof.
  unfold Regex.match_version.
  destruct (Regex.first_triple (list_ascii_of_string out)) as [ m | ] eqn:H;
    [ | discriminate ].
  apply first_triple_nonempty in H. intros E. injection E as <-.
  destruct m; [ congruence | reflexivity ].
Qed.

Lemma getLastUpdateCheck_value (w : World) :
  fst (Config.getLastUpdateCheck w)
  = Return (lastUpdateCheck (stored w)).
Proof.
  unfold Config.getLastUpdateCheck, bind, ret.
  pose proof (ConfigFacts.readConfig_value w) as H.
  destruct (Config.readConfig w) as [o w']. cbn in H. now subst o.
Qed.

Lemma isWithinCooldown_value (u : Updater.t) (w : World) :
  fst (Updater.isWithinCooldown u w) = Return (cooling u w).
Proof.
  unfold Updater.isWithinCooldown, bind, cooling.
  pose proof (getLastUpdateCheck_value w) as H.
  pose proof (ConfigFacts.readConfig_frame w) as F.
  unfold Config.getLastUpdateCheck, bind, ret in *.
  destruct (Config.readConfig w) as [o w'].
  destruct o as [ c | e ]; cbn in *; [ | discriminate ].
  injection H as H. rewrite H.
  destruct (lastUpdateCheck (stored w)) as [ last | ];
    [ | reflexivity ].
  cbn. destruct (last =? 0); [ reflexivity | ].
  unfold date_now, bind, ret. cbn.
  destruct F as (_ & _ & _ & Hc & _). now rewrite Hc.
Qed.

(** Once the gate is open it stays open while the stored timestamp is not
    touched and the clock does not run backwards. *)
Lemma cooling_stays_open (u : Updater.t) (w w2 : World) :
  file w2 = file w -> dir_exists w2 = dir_exists w -> clock w <= clock w2 ->
  cooling u w = false -> cooling u w2 = false.
Proof.
  unfold cooling, stored. intros -> -> Hc.
  destruct (lastUpdateCheck _) as [ last | ]; [ | reflexivity ].
  destruct (last =? 0); [ reflexivity | ].
  rewrite !Z.ltb_ge. lia.
Qed.

End UpdaterFacts.

#[local] Opaque Semver.lt Semver.parse Regex.match_version String.append.

(** Rewrite with what the hypotheses say the lookups resolved to. *)
Ltac use_resolved :=
  match goal with
  | H : Regex.match_version _ = _ |- _ => rewrite H
  | H : Js.not_str _ = _ |- _ => rewrite H
  | H : Semver.lt _ _ = _ |- _ => rewrite H
  end.

Ltac run_cases :=
  repeat (first [ use_resolved | split_match ]; cbn in *; try discriminate).

Ltac open_world w :=
  destruct w as [?d ?f ?wr ?c ?l ?tl ?rg ?np ?tr]; cbn in *; subst.

(** *** A failed lookup *)

(** C3, as stated, fails: a registry body that is JSON without a [version]
    field is no rejection for [getLatestVersion], which resolves
    [undefined]; with the tool not installed the check then returns [true],
    not [false]. *)
Lemma C3_body_without_version_answers_true :
  registry no_version_field = HttpEnd (JsonObject None) /\
  fst (Updater.isWithinCooldown gemini no_version_field) = Return false /\
  fst (Updater.getCurrentVersion gemini no_version_field) = Return None /\
  fst (Updater.getLatestVersion gemini no_version_field) = Return None /\
  fst (Updater.checkForUpdate gemini no_version_field) = Return true /\
  fst (Updater.checkForUpdate gemini no_version_field) <> Return false.
Proof.
  repeat split; try (vm_compute; reflexivity).
  vm_compute. discriminate.
Qed.

(** C3, amended: when [getLatestVersion] rejects (request error, timeout, a
    body that is not JSON), and also when the body is JSON without a
    [version] field while a current version was found in the tool's output
    (the comparison then throws), [checkForUpdate] returns [false] instead
    of throwing and leaves the config file, hence [lastUpdateCheck], as it
    was; if the cooldown gate was open for this check, it is open for every
    later invocation that finds the same file. *)
Theorem C3_failed_check_keeps_last_check (u : Updater.t) (w : World) :
  resolver_failure (registry w) = true \/
  (registry w = HttpEnd (JsonObject None) /\
   exists out cur,
     tool w = ExecStdout out /\ Regex.match_version out = Some cur) ->
  let w' := snd (Updater.checkForUpdate u w) in
  fst (Updater.checkForUpdate u w) = Return false /\
  file w' = file w /\
  dir_exists w' = dir_exists w /\
  fst (Config.getLastUpdateCheck w') = fst (Config.getLastUpdateCheck w) /\
  (fst (Updater.isWithinCooldown u w) = Return false ->
   forall w2,
     file w2 = file w' -> dir_exists w2 = dir_exists w' ->
     clock w <= clock w2 ->
     fst (Updater.isWithinCooldown u w2) = Return false).
Proof.
  intros Hfail w'.
  assert (Hcore : fst (Updater.checkForUpdate u w) = Return false /\
                  file w' = file w /\ dir_exists w' = dir_exists w).
  { subst w'. destruct Hfail as [ Hfail | (Hreg & out & cur & Htool & Hm) ].
    - open_world w. unfold_all. cbn.
      repeat (split_match; cbn in *; try discriminate); auto.
    - pose proof (UpdaterFacts.match_version_truthy _ Hm) as Hne.
      destruct (UpdaterFacts.lt_undefined_throws cur) as [e Hlt].
      open_world w. unfold_all. cbn in *.
      run_cases; auto. }
  destruct Hcore as (Hret & Hfile & Hdir).
  repeat split; try assumption.
  - rewrite !UpdaterFacts.getLastUpdateCheck_value.
    unfold stored. now rewrite Hfile, Hdir.
  - intros Hopen w2 Hf2 Hd2 Hclock.
    rewrite UpdaterFacts.isWithinCooldown_value in *.
    injection Hopen as Hopen. f_equal.
    apply (UpdaterFacts.cooling_stays_open u w); congruence.
Qed.

(** The amended C3 with a registry that times out, and with a registry
    body that has no [version] field on a machine where the tool is
    installed. *)
Lemma C3_failed_check_keeps_last_check_witness :
  resolver_failure (registry registry_down) = true /\
  fst (Updater.checkForUpdate gemini registry_down) = Return false /\
  fst (Config.getLastUpdateCheck
         (snd (Updater.checkForUpdate gemini registry_down)))
  = Return (Some 1700000000000) /\
  registry no_version_field_installed = HttpEnd (JsonObject None) /\
  fst (Updater.checkForUpdate gemini no_version_field_installed)
  = Return false /\
  fst (Config.getLastUpdateCheck
         (snd (Updater.checkForUpdate gemini no_version_field_installed)))
  = Return (Some 1700000000000).
Proof.
  destruct (C3_failed_check_keeps_last_check
              gemini registry_down (or_introl eq_refl))
    as (Hret & _ & _ & Hlast & _).
  assert (Hbody :
    resolver_failure (registry no_version_field_installed) = true \/
    (registry no_version_field_installed = HttpEnd (JsonObject None) /\
     exists out cur,
       tool no_version_field_installed = ExecStdout out /\
       Regex.match_version out = Some cur)).
  { right. split; [ reflexivity | ].
    exists "0.1.5", "0.1.5". split; [ reflexivity | ].
    vm_compute. reflexivity. }
  destruct (C3_failed_check_keeps_last_check
              gemini no_version_field_installed Hbody)
    as (Hret2 & _ & _ & Hlast2 & _).
  split; [ reflexivity | ].
  split; [ exact Hret | ].
  split; [ rewrite Hlast; vm_compute; reflexivity | ].
  split; [ reflexivity | ].
  split; [ exact Hret2 | ].
  rewrite Hlast2. vm_compute. reflexivity.
Defined.

(** *** The cooldown gate *)

(** Inside the updater's own cooldown, a check is one debug log line: it
    returns [false] and the world is otherwise untouched, so there is no
    subprocess, no request and no write. *)
Lemma cooldown_gate_skips (u : Updater.t) (w : World) (last : Z) :
  fst (Config.getLastUpdateCheck w) = Return (Some last) ->
  last <> 0 ->
  clock w - last < Updater.updateCooldown u ->
  Updater.checkForUpdate u w
  = (Return false,
     snd (Logger.debug "Skipping update check (within cooldown period)"
                       [] w)).
Proof.
  intros Hlast Hnz Hlt. apply Z.ltb_lt in Hlt. apply Z.eqb_neq in Hnz.
  open_world w. unfold_all. cbn in *.
  repeat (split_match; cbn in *; try discriminate;
          try match goal with
            | H : Return _ = Return (Some last) |- _ => injection H as H
            end;
          subst; cbn in *; try congruence).
Qed.

(** The cooldown the gate compares with is the field the constructor sets,
    one hour, whatever the config file says. *)
Lemma new_updater_cooldown (p c : string) (w : World) :
  exists u, fst (Updater.new p c w) = Return u
            /\ Updater.updateCooldown u = 3600000.
Proof.
  open_world w. unfold Updater.new. unfold_all. cbn.
  repeat (split_match; cbn in *; try discriminate);
    eexists; split; reflexivity.
Qed.

(** C1 at a failing input: the configured cooldown is two hours and the
    last check is ninety minutes old, yet the check of a freshly
    constructed updater runs the version query and the registry request,
    answers [true], rewrites [lastUpdateCheck] and appends to the
    history. *)
Theorem C1_configured_cooldown_not_consulted :
  exists u,
    fst (Updater.new "@google/gemini-cli" "gemini" two_hour_cooldown)
    = Return u /\
    fst (Config.getUpdateCooldown two_hour_cooldown) = Return 7200000 /\
    fst (Config.getLastUpdateCheck two_hour_cooldown)
    = Return (Some 1700000000000) /\
    clock two_hour_cooldown - 1700000000000 < 7200000 /\
    fst (Updater.checkForUpdate u two_hour_cooldown) = Return true /\
    effects (trace (snd (Updater.checkForUpdate u two_hour_cooldown)))
    = [EvExec "gemini --version";
       EvHttpGet "https://registry.npmjs.org/@google/gemini-cli/latest";
       EvWriteConfig
         (mkConfig (Some 1700005400080) None (Some [])
                   (Some (mkSettings (Some 7200000) (Some 10)
                                     (Some true) (Some true))));
       EvWriteConfig
         (mkConfig (Some 1700005400080) None
                   (Some [mkEntry "0.1.4" "0.1.5" 1700005400080 true])
                   (Some (mkSettings (Some 7200000) (Some 10)
                                     (Some true) (Some true))))].
Proof.
  eexists. split; [ vm_compute; reflexivity | ].
  repeat split; vm_compute; reflexivity.
Qed.

(** *** Stamping the check *)

(** C2, as stated, fails: the gate is open, the current version resolves to
    [null] and the latest to "0.1.5" with no rejection, the check decides
    that an update is needed, and [lastUpdateCheck] keeps its old value.
    It also fails when both versions resolve and the config directory
    refuses the write ([writeConfig] swallows the error and the old value
    stays), and when both resolve to strings of which one is no semantic
    version (2024.01.15 has a leading zero: the comparison throws before
    the stamp). *)
Lemma C2_absent_current_leaves_the_stamp :
  let w' := snd (Updater.checkForUpdate gemini tool_missing) in
  let r' := snd (Updater.checkForUpdate gemini read_only_up_to_date) in
  let d' := snd (Updater.checkForUpdate gemini date_versioned) in
  fst (Updater.isWithinCooldown gemini tool_missing) = Return false /\
  fst (Updater.getCurrentVersion gemini tool_missing) = Return None /\
  fst (Updater.getLatestVersion gemini tool_missing) = Return (Some "0.1.5") /\
  fst (Updater.checkForUpdate gemini tool_missing) = Return true /\
  fst (Config.getLastUpdateCheck w') = Return (Some 1700000000000) /\
  fst (Config.getLastUpdateCheck w') <> Return (Some (clock w')) /\
  fst (Updater.isWithinCooldown gemini read_only_up_to_date)
  = Return false /\
  fst (Updater.getCurrentVersion gemini read_only_up_to_date)
  = Return (Some "0.1.5") /\
  fst (Updater.getLatestVersion gemini read_only_up_to_date)
  = Return (Some "0.1.5") /\
  fst (Updater.checkForUpdate gemini read_only_up_to_date) = Return false /\
  fst (Config.getLastUpdateCheck r') = Return (Some 1700000000000) /\
  fst (Config.getLastUpdateCheck r') <> Return (Some (clock r')) /\
  fst (Updater.isWithinCooldown gemini date_versioned) = Return false /\
  fst (Updater.getCurrentVersion gemini date_versioned)
  = Return (Some "2024.01.15") /\
  fst (Updater.getLatestVersion gemini date_versioned)
  = Return (Some "2024.2.1") /\
  fst (Updater.checkForUpdate gemini date_versioned) = Return false /\
  fst (Config.getLastUpdateCheck d') = Return (Some 1700000000000) /\
  fst (Config.getLastUpdateCheck d') <> Return (Some (clock d')).
Proof.
  repeat split; try (vm_compute; reflexivity).
  all: vm_compute; discriminate.
Qed.

(** C2, amended: on a config directory that exists and accepts writes, a
    check that passes the cooldown gate, finds a current version in the
    tool's output, gets a latest version from the registry and can compare
    the two as semantic versions, stamps [lastUpdateCheck] with the time
    at which the comparison is done (after both lookups), whether or not an
    update is needed; the stamp is never below the value it replaces, as
    long as the cooldown and the clock are not negative and the lookups
    take no negative time. *)
Theorem C2_resolved_check_stamps_now
  (u : Updater.t) (w : World) (out cur lat : string) (b : bool) :
  writable w = true -> dir_exists w = true ->
  fst (Updater.isWithinCooldown u w) = Return false ->
  tool w = ExecStdout out ->
  Regex.match_version out = Some cur ->
  registry w = HttpEnd (JsonObject (Some lat)) ->
  Semver.lt (Some cur) (Some lat) = Return b ->
  let w' := snd (Updater.checkForUpdate u w) in
  fst (Updater.checkForUpdate u w) = Return b /\
  fst (Config.getLastUpdateCheck w') = Return (Some (clock w')) /\
  clock w' = clock w + latency w + latency w /\
  (forall t0,
     fst (Config.getLastUpdateCheck w) = Return (Some t0) ->
     0 <= Updater.updateCooldown u ->
     0 <= clock w -> 0 <= latency w -> t0 <= clock w').
Proof.
  intros Hw Hd Hgate Htool Hm Hreg Hlt.
  pose proof (UpdaterFacts.match_version_truthy _ Hm) as Hne.
  open_world w. unfold_all. cbn in *.
  run_cases.
  all: repeat split; try reflexivity.
  all: intros t0 E Hcd Hc0 Hl0; try discriminate; injection E as E; subst.
  all: cbn in *; try discriminate.
  all: repeat match goal with
         | H : Return _ = Return _ |- _ => injection H as H
         | H : (_ <? _) = false |- _ => apply Z.ltb_ge in H
         | H : (_ =? _) = true |- _ => apply Z.eqb_eq in H
         end; lia.
Qed.

(** The amended C2 on a machine that is up to date. *)
Lemma C2_resolved_check_stamps_now_witness :
  fst (Updater.checkForUpdate gemini up_to_date) = Return false /\
  fst (Config.getLastUpdateCheck
         (snd (Updater.checkForUpdate gemini up_to_date)))
  = Return (Some 1700007200080) /\
  1700000000000
  <= clock up_to_date + latency up_to_date + latency up_to_date.
Proof.
  destruct (C2_resolved_check_stamps_now
              gemini up_to_date (out := "0.1.5") (cur := "0.1.5")
              (lat := "0.1.5") (b := false)
              ltac:(vm_compute; reflexivity) ltac:(vm_compute; reflexivity)
              ltac:(vm_compute; reflexivity) ltac:(vm_compute; reflexivity)
              ltac:(vm_compute; reflexivity) ltac:(vm_compute; reflexivity)
              ltac:(vm_compute; reflexivity))
    as (Hret & Hstamp & Hclock & Hmono).
  split; [ exact Hret | ].
  split; [ rewrite Hstamp, Hclock; reflexivity | ].
  rewrite Hclock in Hmono.
  apply (Hmono 1700000000000); vm_compute; (reflexivity || discriminate).
Defined.

(** *** Semantic-version ordering *)

Module SemverFacts.

Import Semver SemverSpec.

Lemma ascii_compare_N (c d : ascii) :
  Ascii.compare c d = (N_of_ascii c ?= N_of_ascii d)%N.
Proof. reflexivity. Qed.

Lemma string_compare_refl (s : string) : String.compare s s = Eq.
Proof.
  induction s as [ | c s IH ]; simpl; [ reflexivity | ].
  rewrite ascii_compare_N, N.compare_refl. exact IH.
Qed.

Lemma string_compare_lt (s t : string) :
  String.compare s t = Lt <-> ascii_order s t.
Proof.
  revert t. induction s as [ | c s IH ]; intros [ | d t ]; simpl.
  - split; [ discriminate | inversion 1 ].
  - split; [ constructor | reflexivity ].
  - split; [ discriminate | inversion 1 ].
  - rewrite ascii_compare_N.
    destruct (N.compare_spec (N_of_ascii c) (N_of_ascii d)) as [ E | L | G ].
    + assert (c = d) as ->.
      { rewrite <- (ascii_N_embedding c), <- (ascii_N_embedding d).
        now rewrite E. }
      rewrite IH. split; [ now constructor | ].
      inversion 1; subst; [ lia | assumption ].
    + split; [ intros _; now apply ao_head | reflexivity ].
    + split; [ discriminate | ].
      inversion 1; subst; lia.
Qed.

Lemma compareIdentifiers_refl (x : Ident) : compareIdentifiers x x = Eq.
Proof.
  destruct x; simpl; [ apply N.compare_refl | apply string_compare_refl ].
Qed.

Lemma compareIdentifiers_eq (x y : Ident) :
  compareIdentifiers x y = Eq -> x = y.
Proof.
  destruct x, y; simpl; try discriminate; intros H.
  - apply N.compare_eq in H. now subst.
  - apply String.compare_eq_iff in H. now subst.
Qed.

Lemma compareIdentifiers_lt (x y : Ident) :
  compareIdentifiers x y = Lt <-> ident_before x y.
Proof.
  destruct x as [ x | s ], y as [ y | t ]; simpl.
  - rewrite N.compare_lt_iff. split; [ now constructor | now inversion 1 ].
  - split; [ constructor | reflexivity ].
  - split; [ discriminate | inversion 1 ].
  - rewrite string_compare_lt. split; [ now constructor | now inversion 1 ].
Qed.

Lemma compareIdents_refl (a : list Ident) : compareIdents a a = Eq.
Proof.
  induction a as [ | x a IH ]; simpl; [ reflexivity | ].
  now rewrite compareIdentifiers_refl.
Qed.

Lemma compareIdents_lt (a b : list Ident) :
  compareIdents a b = Lt <-> idents_before a b.
Proof.
  revert b. induction a as [ | x a IH ]; intros [ | y b ]; simpl.
  - split; [ discriminate | inversion 1 ].
  - split; [ constructor | reflexivity ].
  - split; [ discriminate | inversion 1 ].
  - destruct (compareIdentifiers x y) eqn:E.
    + apply compareIdentifiers_eq in E. subst y. rewrite IH.
      split; [ now constructor | ].
      inversion 1; subst; [ | assumption ].
      match goal with
      | H : ident_before x x |- _ =>
          apply compareIdentifiers_lt in H;
          rewrite compareIdentifiers_refl in H; discriminate
      end.
    + split; [ intros _ | reflexivity ].
      apply isb_head. now apply compareIdentifiers_lt.
    + split; [ discriminate | ].
      inversion 1; subst.
      * match goal with
        | H : ident_before x y |- _ =>
            apply compareIdentifiers_lt in H; congruence
        end.
      * rewrite compareIdentifiers_refl in E. discriminate.
Qed.

Lemma comparePre_lt (a b : SemVer) :
  comparePre a b = Lt <->
  (prerelease a <> [] /\ prerelease b = []) \/
  (prerelease a <> [] /\ prerelease b <> []
   /\ idents_before (prerelease a) (prerelease b)).
Proof.
  unfold comparePre.
  destruct (prerelease a) as [ | x pa ], (prerelease b) as [ | y pb ].
  - split; [ discriminate | intros [ [ H _ ] | [ H _ ] ]; congruence ].
  - split; [ discriminate | intros [ [ H _ ] | [ H _ ] ]; congruence ].
  - split; [ intros _; left; split; congruence | reflexivity ].
  - rewrite compareIdents_lt. split.
    + intros H. right. repeat split; congruence.
    + intros [ [ _ H ] | ( _ & _ & H ) ]; [ discriminate | exact H ].
Qed.

(** The comparison of the package agrees with the worded precedence. *)
Lemma compare_lt_iff_precedes (a b : SemVer) :
  compare a b = Lt <-> precedes a b.
Proof.
  unfold compare, compareMain.
  destruct (N.compare_spec (major a) (major b)) as [ Ema | Lma | Gma ].
  - destruct (N.compare_spec (minor a) (minor b)) as [ Emi | Lmi | Gmi ].
    + destruct (N.compare_spec (patch a) (patch b)) as [ Epa | Lpa | Gpa ].
      * rewrite comparePre_lt. split.
        -- intros [ [ Ha Hb ] | ( Ha & Hb & Hlt ) ].
           ++ now apply prerelease_first.
           ++ now apply by_prerelease.
        -- intros [ H | _ H | _ _ H | _ Ha Hb | _ Ha Hb Hlt ]; try lia.
           ++ now left.
           ++ now right.
      * split; [ intros _; now apply by_patch | reflexivity ].
      * split; [ discriminate | ].
        intros [ H | _ H | _ _ H | ( _ & _ & H ) _ _ | ( _ & _ & H ) _ _ _ ];
          lia.
    + split; [ intros _; now apply by_minor | reflexivity ].
    + split; [ discriminate | ].
      intros [ H | _ H | _ H _ | ( _ & H & _ ) _ _ | ( _ & H & _ ) _ _ _ ];
        lia.
  - split; [ intros _; now apply by_major | reflexivity ].
  - split; [ discriminate | ].
    intros [ H | H _ | H _ _ | ( H & _ ) _ _ | ( H & _ ) _ _ _ ]; lia.
Qed.

Lemma compare_refl (a : SemVer) : compare a a = Eq.
Proof.
  unfold compare, compareMain, comparePre. rewrite !N.compare_refl.
  destruct (prerelease a) as [ | x pa ] eqn:E; [ reflexivity | ].
  rewrite <- E. apply compareIdents_refl.
Qed.

(** No version precedes itself. *)
Lemma precedes_irrefl (a : SemVer) : ~ precedes a a.
Proof.
  intros H. apply compare_lt_iff_precedes in H.
  rewrite compare_refl in H. discriminate.
Qed.

End SemverFacts.

(** *** The decision *)

(** C7, as stated, fails at its pair 2.0.0-beta, 2.0.0: the tool reports
    2.0.0-beta, the registry 2.0.0, both lookups resolve and the gate is
    open; 2.0.0-beta is below 2.0.0 in the ordering, yet the version query
    resolves the current version to 2.0.0 and the check answers [false]. *)
Lemma C7_installed_prerelease_needs_no_update :
  tool beta_installed = ExecStdout "2.0.0-beta" /\
  registry beta_installed = HttpEnd (JsonObject (Some "2.0.0")) /\
  fst (Updater.isWithinCooldown gemini beta_installed) = Return false /\
  Semver.lt (Some "2.0.0-beta") (Some "2.0.0") = Return true /\
  fst (Updater.getCurrentVersion gemini beta_installed)
  = Return (Some "2.0.0") /\
  fst (Updater.getLatestVersion gemini beta_installed)
  = Return (Some "2.0.0") /\
  fst (Updater.checkForUpdate gemini beta_installed) = Return false.
Proof. repeat split; vm_compute; reflexivity. Qed.

(** C7, amended: past the cooldown gate, with a current version resolved
    from the tool's output (a run of digits and dots cut from that output,
    so without a prerelease tag) and a latest version delivered by the
    registry, both valid semantic versions, [checkForUpdate] returns [true]
    exactly when the resolved current version precedes the latest in
    semantic-version order, and [false] when the two are equal; in the
    comparison it uses, 1.2.3 is below 1.10.0 and 2.0.0-beta is below
    2.0.0, while the tool output 2.0.0-beta resolves to 2.0.0, which is
    not below 2.0.0. *)
Theorem C7_update_needed_iff_current_precedes_latest
  (u : Updater.t) (w : World) (out cur lat : string)
  (vc vl : Semver.SemVer) :
  fst (Updater.isWithinCooldown u w) = Return false ->
  tool w = ExecStdout out ->
  Regex.match_version out = Some cur ->
  registry w = HttpEnd (JsonObject (Some lat)) ->
  Semver.parse cur = Some vc ->
  Semver.parse lat = Some vl ->
  (exists b,
      fst (Updater.checkForUpdate u w) = Return b /\
      (b = true <-> SemverSpec.precedes vc vl)) /\
  (vc = vl -> fst (Updater.checkForUpdate u w) = Return false) /\
  Semver.lt (Some "1.2.3") (Some "1.10.0") = Return true /\
  Semver.lt (Some "2.0.0-beta") (Some "2.0.0") = Return true /\
  Semver.lt (Some "2.0.0") (Some "2.0.0") = Return false /\
  Regex.match_version "2.0.0-beta" = Some "2.0.0" /\
  (exists pre post,
      list_ascii_of_string out = pre ++ list_ascii_of_string cur ++ post) /\
  Forall (fun ch => Semver.is_digit ch = true \/ ch = "."%char)
         (list_ascii_of_string cur).
Proof.
  intros Hgate Htool Hm Hreg Hpc Hpl.
  pose proof (UpdaterFacts.match_version_cut _ Hm) as [Hcut Hshape].
  pose proof (UpdaterFacts.match_version_truthy _ Hm) as Hne.
  set (b := match Semver.compare vc vl with Lt => true | _ => false end).
  assert (Hlt : Semver.lt (Some cur) (Some lat) = Return b).
  { Transparent Semver.lt. unfold Semver.lt. Opaque Semver.lt.
    now rewrite Hpc, Hpl. }
  assert (Hret : fst (Updater.checkForUpdate u w) = Return b).
  { clearbody b. clear Hpc Hpl. open_world w. unfold_all. cbn in *.
    run_cases; reflexivity. }
  split; [ | split ].
  - exists b. split; [ exact Hret | ].
    rewrite <- SemverFacts.compare_lt_iff_precedes. subst b.
    destruct (Semver.compare vc vl); split; congruence.
  - intros ->. rewrite Hret. subst b.
    now rewrite SemverFacts.compare_refl.
  - split; [ vm_compute; reflexivity | ].
    split; [ vm_compute; reflexivity | ].
    split; [ vm_compute; reflexivity | ].
    split; [ vm_compute; reflexivity | ].
    split; [ exact Hcut | exact Hshape ].
Qed.

(** The amended C7 with the tool at 1.2.3 and the registry at 1.10.0. *)
Lemma C7_update_needed_iff_current_precedes_latest_witness :
  fst (Updater.checkForUpdate gemini minor_behind) = Return true.
Proof.
  destruct (C7_update_needed_iff_current_precedes_latest
              gemini minor_behind (out := "gemini 1.2.3") (cur := "1.2.3")
              (lat := "1.10.0")
              (vc := Semver.mkSemVer 1 2 3 [])
              (vl := Semver.mkSemVer 1 10 0 [])
              ltac:(vm_compute; reflexivity) ltac:(vm_compute; reflexivity)
              ltac:(vm_compute; reflexivity) ltac:(vm_compute; reflexivity)
              ltac:(vm_compute; reflexivity) ltac:(vm_compute; reflexivity))
    as ((b & Hret & Hiff) & _).
  rewrite Hret. f_equal. apply Hiff.
  apply SemverSpec.by_minor; [ reflexivity | vm_compute; reflexivity ].
Defined.

(** The version query keeps the dotted triple only: a tool that reports
    2.0.0-beta is taken to be at 2.0.0, and a registry at 2.0.0 then means
    no update. *)
Remark prerelease_tag_of_the_tool_is_dropped :
  Regex.match_version "2.0.0-beta" = Some "2.0.0" /\
  forall w,
    tool w = ExecStdout "2.0.0-beta" ->
    registry w = HttpEnd (JsonObject (Some "2.0.0")) ->
    fst (Updater.checkForUpdate gemini w) = Return false.
Proof.
  split; [ vm_compute; reflexivity | ].
  intros w Htool Hreg.
  assert (Hm : Regex.match_version "2.0.0-beta" = Some "2.0.0")
    by (vm_compute; reflexivity).
  assert (Hlt : Semver.lt (Some "2.0.0") (Some "2.0.0") = Return false)
    by (vm_compute; reflexivity).
  open_world w. unfold_all. cbn in *.
  run_cases; reflexivity.
Qed.

(** *** History is written at decision time *)

#[local] Opaque Config.capped.

(** When a check has answered [true], the entry point goes on to
    [performUpdate], whose first effect is the install command. *)
Lemma checkAndUpdate_installs (u : Updater.t) (w w' : World) :
  Updater.checkForUpdate u w = (Return true, w') ->
  exists evs rest,
    trace (snd (checkAndUpdate u w)) = trace w' ++ evs /\
    effects evs
    = EvExec ("npm install -g " ++ Updater.packageName u)%string :: rest.
Proof.
  intros Hcheck. unfold checkAndUpdate, try_catch, bind. rewrite Hcheck.
  clear Hcheck w. open_world w'. unfold_all. cbn.
  run_cases.
  all: eexists; eexists; split;
    [ rewrite <- !app_assoc; reflexivity | cbn; reflexivity ].
Qed.

(** C8, as stated, fails: with a known current version and an update
    needed, no entry is stored when the config directory refuses the write
    (the history on disk keeps its single old entry), and none is stored
    either when the settings carry [maxVersionHistory: -1] (the pushed
    entry is sliced away at once); in both cases the check answers
    [true]. *)
Lemma C8_entry_not_stored :
  fst (Updater.getCurrentVersion gemini read_only_behind)
  = Return (Some "0.1.4") /\
  fst (Updater.checkForUpdate gemini read_only_behind) = Return true /\
  fst (Config.getVersionHistory
         (snd (Updater.checkForUpdate gemini read_only_behind)))
  = Return [mkEntry "0.1.3" "0.1.4" 1690000000000 true] /\
  fst (Updater.getCurrentVersion gemini negative_cap)
  = Return (Some "0.1.4") /\
  fst (Updater.checkForUpdate gemini negative_cap) = Return true /\
  fst (Config.getVersionHistory
         (snd (Updater.checkForUpdate gemini negative_cap)))
  = Return [].
Proof. repeat split; vm_compute; reflexivity. Qed.

(** C8, amended: on a config directory that exists and accepts writes and
    with a positive history cap ([maxVersionHistory], or 10 when that is
    missing or 0), when [checkForUpdate] decides that an update is needed
    with a known current version, it has, by the time it returns, stored
    the old history followed by the new entry (from = current,
    to = latest, [success = true], stamped with the time of the decision),
    cut to its last cap entries, so the new entry is the last one and
    nothing is dropped below the cap; its own effects are the version
    query, the registry request, the write of the stamp and the write of
    that history, in this order, none of them an install; the install
    command is the first effect after the check has returned. *)
Theorem C8_history_written_before_install
  (u : Updater.t) (w : World) (out cur lat : string) (c : ConfigDoc) :
  writable w = true -> dir_exists w = true ->
  fst (Updater.isWithinCooldown u w) = Return false ->
  tool w = ExecStdout out ->
  Regex.match_version out = Some cur ->
  registry w = HttpEnd (JsonObject (Some lat)) ->
  Semver.lt (Some cur) (Some lat) = Return true ->
  fst (Config.readConfig w) = Return c ->
  0 < Config.maxHistory c ->
  let w' := snd (Updater.checkForUpdate u w) in
  let entry := mkEntry cur lat (clock w') true in
  let pushed := Js.arr_or (versionHistory c) ++ [entry] in
  let kept :=
    skipn (List.length pushed - Z.to_nat (Config.maxHistory c)) pushed in
  let c1 := mkConfig (Some (clock w')) (lastUpdateTime c)
                     (versionHistory c) (settings c) in
  let c2 := mkConfig (Some (clock w')) (lastUpdateTime c)
                     (Some kept) (settings c) in
  fst (Updater.checkForUpdate u w) = Return true /\
  fst (Config.readConfig w') = Return c2 /\
  fst (Config.getVersionHistory w') = Return kept /\
  (exists older, kept = older ++ [entry]) /\
  (Z.of_nat (List.length pushed) <= Config.maxHistory c -> kept = pushed) /\
  (exists evs,
      trace w' = trace w ++ evs /\
      effects evs
      = [EvExec (Updater.commandName u ++ " --version")%string;
         EvHttpGet (Updater.registry_url u);
         EvWriteConfig c1; EvWriteConfig c2]) /\
  (exists evs rest,
      trace (snd (checkAndUpdate u w)) = trace w' ++ evs /\
      effects evs
      = EvExec ("npm install -g " ++ Updater.packageName u)%string :: rest).
Proof.
  intros Hw Hd Hgate Htool Hm Hreg Hlt Hc Hpos w' entry pushed kept c1 c2.
  assert (Hkept : Config.capped c entry = kept).
  { apply HistoryFacts.capped_is_tail. exact Hpos. }
  assert (Hmain :
    fst (Updater.checkForUpdate u w) = Return true /\
    fst (Config.readConfig w')
    = Return (mkConfig (Some (clock w')) (lastUpdateTime c)
                       (Some (Config.capped c entry)) (settings c)) /\
    (exists evs,
        trace w' = trace w ++ evs /\
        effects evs
        = [EvExec (Updater.commandName u ++ " --version")%string;
           EvHttpGet (Updater.registry_url u);
           EvWriteConfig c1;
           EvWriteConfig (mkConfig (Some (clock w')) (lastUpdateTime c)
                                   (Some (Config.capped c entry))
                                   (settings c))])).
  { clear Hkept. subst c1 c2 kept pushed w' entry.
    pose proof (UpdaterFacts.match_version_truthy _ Hm) as Hne.
    rewrite ConfigFacts.readConfig_value in Hc. injection Hc as Hc.
    unfold stored in Hc. clear Hpos.
    open_world w. unfold Updater.registry_url.
    destruct f as [ [ | [sa sb sc sd] ] | ]; unfold_all; cbn in *.
    all: run_cases.
    all: with_strategy transparent [Config.capped]
           (unfold Config.capped, Config.maxHistory, Config.spread; cbn).
    all: split; [ reflexivity | ].
    all: split; [ reflexivity | ].
    all: eexists; split; [ rewrite <- !app_assoc; reflexivity | ].
    all: cbn; reflexivity. }
  destruct Hmain as (Hret & Hread & Heff).
  rewrite Hkept in Hread, Heff.
  split; [ exact Hret | ].
  split; [ exact Hread | ].
  split.
  { unfold Config.getVersionHistory, bind.
    destruct (Config.readConfig w') as [o w''] eqn:Hr. cbn in Hread.
    subst o. reflexivity. }
  split.
  { destruct (HistoryFacts.capped_last c entry Hpos) as [older Hk].
    exists older. now rewrite <- Hkept. }
  split.
  { intros Hle. subst kept.
    replace (List.length pushed - Z.to_nat (Config.maxHistory c))%nat
      with 0%nat by lia.
    reflexivity. }
  split; [ exact Heff | ].
  apply (checkAndUpdate_installs u w).
  rewrite (surjective_pairing (Updater.checkForUpdate u w)).
  now rewrite Hret.
Qed.

(** The amended C8 on a full history of ten entries, the tool at 1.0.1 and
    the registry at 1.0.2: the oldest entry goes, the new one is stored
    last, and both config writes come before the install command. *)
Lemma C8_history_written_before_install_witness :
  fst (Updater.checkForUpdate gemini full_history_disk) = Return true /\
  fst (Config.getVersionHistory
         (snd (Updater.checkForUpdate gemini full_history_disk)))
  = Return (map (fun n => mkEntry "1.0.0" "1.0.1" n true)
                [2; 3; 4; 5; 6; 7; 8; 9; 10]
            ++ [mkEntry "1.0.1" "1.0.2" 1700003600100 true]) /\
  exists c1 c2 rest,
    effects (trace (snd (Updater.checkForUpdate gemini full_history_disk)))
    = [EvExec "gemini --version";
       EvHttpGet "https://registry.npmjs.org/@google/gemini-cli/latest";
       EvWriteConfig c1; EvWriteConfig c2] /\
    effects (trace (snd (checkAndUpdate gemini full_history_disk)))
    = [EvExec "gemini --version";
       EvHttpGet "https://registry.npmjs.org/@google/gemini-cli/latest";
       EvWriteConfig c1; EvWriteConfig c2;
       EvExec "npm install -g @google/gemini-cli"] ++ rest /\
    option_map (@List.length _) (versionHistory c1) = Some 10%nat /\
    option_map (@List.length _) (versionHistory c2) = Some 10%nat.
Proof.
  destruct (C8_history_written_before_install
              gemini full_history_disk (out := "1.0.1") (cur := "1.0.1")
              (lat := "1.0.2") (c := stored full_history_disk)
              ltac:(vm_compute; reflexivity) ltac:(vm_compute; reflexivity)
              ltac:(vm_compute; reflexivity) ltac:(vm_compute; reflexivity)
              ltac:(vm_compute; reflexivity) ltac:(vm_compute; reflexivity)
              ltac:(vm_compute; reflexivity) ltac:(vm_compute; reflexivity)
              ltac:(vm_compute; reflexivity))
    as (Hret & _ & Hhist & _ & _ & (evs & Htr & Heff)
        & (evs2 & rest & Htr2 & Heff2)).
  split; [ exact Hret | ].
  split; [ rewrite Hhist; vm_compute; reflexivity | ].
  change (trace full_history_disk ++ evs) with evs in Htr.
  eexists. eexists. exists rest.
  split; [ rewrite Htr; exact Heff | ].
  split.
  - rewrite Htr2, Htr. unfold effects in *.
    rewrite filter_app, Heff, Heff2. reflexivity.
  - split; vm_compute; reflexivity.
Defined.

(** *** Rollback *)

Lemma getVersionHistory_run (w : World) :
  Config.getVersionHistory w
  = (Return (Js.arr_or (versionHistory (stored w))),
     snd (Config.readConfig w)).
Proof.
  unfold Config.getVersionHistory, bind, ret.
  pose proof (ConfigFacts.readConfig_value w) as H.
  destruct (Config.readConfig w) as [o w']. cbn in *. now subst o.
Qed.

(** C5: with fewer than two history entries [rollbackToPreviousVersion]
    throws the error "No previous version available for rollback" and
    runs nothing; with two or more it takes the [from] field of the
    second-to-last entry and runs exactly one command,
    [npm install -g <package>@<from>], returning [true] when npm succeeds
    and rethrowing npm's error when it fails. *)
Theorem C5_rollback_targets_second_to_last
  (u : Updater.t) (w : World) (h : list VersionEntry) :
  fst (Config.getVersionHistory w) = Return h ->
  let r := Updater.rollbackToPreviousVersion u w in
  (Z.of_nat (List.length h) < 2 ->
   fst r = Throw Updater.NoRollbackTarget /\
   exists evs, trace (snd r) = trace w ++ evs /\ effects evs = []) /\
  (2 <= Z.of_nat (List.length h) ->
   exists e,
     nth_error h (List.length h - 2) = Some e /\
     (exists evs,
         trace (snd r) = trace w ++ evs /\
         effects evs
         = [EvExec ("npm install -g " ++ Updater.packageName u ++ "@"
                    ++ from e)%string]) /\
     match npm w (Updater.packageName u ++ "@" ++ from e)%string with
     | NpmThrows msg => fst r = Throw msg
     | NpmInstalled _ tool_after =>
         fst r = Return true /\ tool (snd r) = tool_after
     end).
Proof.
  intros Hh r. subst r.
  rewrite getVersionHistory_run in Hh. cbn in Hh. injection Hh as Hh.
  unfold Updater.rollbackToPreviousVersion, try_catch, bind.
  rewrite getVersionHistory_run, Hh.
  destruct (ConfigFacts.readConfig_frame w)
    as (_ & _ & _ & _ & _ & _ & _ & Hnpm & evs0 & Htr & Heff0).
  destruct (snd (Config.readConfig w)) as [d1 f1 wr1 c1 l1 tl1 rg1 np1 tr1].
  cbn in Hnpm, Htr. subst np1 tr1.
  split.
  - intros Hlt. apply Z.ltb_lt in Hlt. rewrite Hlt.
    unfold_all. cbn. split; [ reflexivity | ].
    eexists. split; [ rewrite <- !app_assoc; reflexivity | ].
    unfold effects in *. rewrite filter_app, Heff0. reflexivity.
  - intros Hge.
    destruct (index_in_range h (i := Z.of_nat (List.length h) - 2))
      as [e He]; [ lia | ].
    apply Z.ltb_ge in Hge. rewrite Hge, He.
    exists e. split.
    { unfold Js.index in He.
      destruct (Z.of_nat (List.length h) - 2 <? 0); [ discriminate | ].
      rewrite <- He. f_equal. lia. }
    unfold_all. cbn.
    destruct (npm w (Updater.packageName u ++ "@" ++ from e)%string)
      as [ msg | o tool_after ]; cbn.
    + split; [ | reflexivity ].
      eexists. split; [ rewrite <- !app_assoc; reflexivity | ].
      unfold effects in *. rewrite filter_app, Heff0. reflexivity.
    + split; [ | split; reflexivity ].
      eexists. split; [ rewrite <- !app_assoc; reflexivity | ].
      unfold effects in *. rewrite filter_app, Heff0. reflexivity.
Qed.

(** C5 on a history of three entries, and on an empty one. *)
Lemma C5_rollback_targets_second_to_last_witness :
  fst (Updater.rollbackToPreviousVersion gemini three_updates) = Return true /\
  effects (trace (snd (Updater.rollbackToPreviousVersion gemini
                                                          three_updates)))
  = [EvExec "npm install -g @google/gemini-cli@0.1.2"] /\
  fst (Updater.rollbackToPreviousVersion gemini missing_file_disk)
  = Throw "No previous version available for rollback".
Proof.
  pose proof (C5_rollback_targets_second_to_last
                gemini three_updates
                (h := Js.arr_or (versionHistory
                                   (stored three_updates)))
                ltac:(vm_compute; reflexivity)) as [ _ Hmany ].
  pose proof (C5_rollback_targets_second_to_last
                gemini missing_file_disk (h := [])
                ltac:(vm_compute; reflexivity)) as [ Hnone _ ].
  destruct Hmany as (e & He & _ & Hres); [ vm_compute; discriminate | ].
  vm_compute in He. injection He as <-.
  destruct Hnone as [ Hthrow _ ]; [ vm_compute; reflexivity | ].
  split; [ apply Hres | ].
  split; [ vm_compute; reflexivity | exact Hthrow ].
Defined.

(** C10: [rollbackToPreviousVersion] leaves the config store as it found
    it, whether it returns or throws: the file is the same, so every read
    ([versionHistory], [lastUpdateCheck], [lastUpdateTime]) gives what it
    gave before, and the rollback performed no write, unlink or mkdir. *)
Theorem C10_rollback_leaves_config_untouched (u : Updater.t) (w : World) :
  let w' := snd (Updater.rollbackToPreviousVersion u w) in
  file w' = file w /\
  dir_exists w' = dir_exists w /\
  fst (Config.readConfig w') = fst (Config.readConfig w) /\
  fst (Config.getVersionHistory w') = fst (Config.getVersionHistory w) /\
  fst (Config.getLastUpdateCheck w') = fst (Config.getLastUpdateCheck w) /\
  fst (Config.getLastUpdateTime w') = fst (Config.getLastUpdateTime w) /\
  exists evs,
    trace w' = trace w ++ evs /\
    filter is_config_change evs = [].
Proof.
  intros w'.
  assert (Hcore : file w' = file w /\ dir_exists w' = dir_exists w /\
                  exists evs, trace w' = trace w ++ evs /\
                              filter is_config_change evs = []).
  { subst w'. open_world w. unfold_all. cbn.
    repeat (split_match; cbn in *; try discriminate).
    all: split; [ reflexivity | ]; split; [ reflexivity | ].
    all: eexists; split; [ rewrite <- ?app_assoc; reflexivity | reflexivity ]. }
  destruct Hcore as (Hf & Hd & Hev).
  assert (Hs : stored w' = stored w).
  { unfold stored. now rewrite Hf, Hd. }
  repeat split; try assumption.
  - now rewrite !ConfigFacts.readConfig_value, Hs.
  - now rewrite !getVersionHistory_run, Hs.
  - now rewrite !UpdaterFacts.getLastUpdateCheck_value, Hs.
  - unfold Config.getLastUpdateTime, bind, ret.
    pose proof (ConfigFacts.readConfig_value w') as H1.
    pose proof (ConfigFacts.readConfig_value w) as H2.
    destruct (Config.readConfig w') as [o1 w1], (Config.readConfig w) as [o2 w2].
    cbn in *. subst. now rewrite Hs.
Qed.

(** *** Forcing an update *)

Module ForceFacts.

Lemma effects_app (a b : list Event) :
  effects (a ++ b) = effects a ++ effects b.
Proof. unfold effects. apply filter_app. Qed.

(** On a writable store the setter never throws and its one effect is the
    write of the document carrying the new timestamp. *)
Lemma setLastUpdateCheck_run (ts : Z) (w : World) :
  writable w = true -> dir_exists w = true ->
  let w0 := snd (Config.setLastUpdateCheck ts w) in
  fst (Config.setLastUpdateCheck ts w) = Return tt /\
  fst (Config.getLastUpdateCheck w0) = Return (Some ts) /\
  exists evs c0,
    trace w0 = trace w ++ evs /\
    effects evs = [EvWriteConfig c0] /\
    lastUpdateCheck c0 = Some ts /\
    c0 = mkConfig (Some ts) (lastUpdateTime (stored w))
                  (versionHistory (stored w)) (settings (stored w)) /\
    fst (Config.readConfig w0) = Return c0.
Proof.
  intros Hw Hd. unfold stored. open_world w.
  destruct f as [ [ | [sa sb sc sd] ] | ]; unfold_all; cbn.
  all: repeat (split_match; cbn in *; try discriminate).
  all: split; [ reflexivity | ]; split; [ reflexivity | ].
  all: eexists; eexists; split; [ rewrite <- ?app_assoc; reflexivity | ].
  all: repeat split; reflexivity.
Qed.

(** With the gate open a check starts with the version query followed by
    the registry request, and it never throws. *)
Lemma open_gate_check_looks_up (u : Updater.t) (w : World) :
  fst (Updater.isWithinCooldown u w) = Return false ->
  exists b evs rest,
    fst (Updater.checkForUpdate u w) = Return b /\
    trace (snd (Updater.checkForUpdate u w)) = trace w ++ evs /\
    effects evs
    = EvExec (Updater.commandName u ++ " --version")%string
      :: EvHttpGet (Updater.registry_url u) :: rest.
Proof.
  intros Hgate. open_world w. unfold Updater.registry_url.
  unfold_all. cbn in *.
  repeat (split_match; cbn in *; try discriminate).
  all: eexists; eexists; eexists; split; [ reflexivity | ].
  all: split; [ rewrite <- ?app_assoc; reflexivity | cbn; reflexivity ].
Qed.

Lemma performUpdate_grows (u : Updater.t) (w : World) :
  exists evs, trace (snd (Updater.performUpdate u w)) = trace w ++ evs.
Proof.
  open_world w. unfold_all. cbn.
  repeat (split_match; cbn in *; try discriminate).
  all: eexists; rewrite <- ?app_assoc; reflexivity.
Qed.

End ForceFacts.

(** C6, as stated, fails: in a config directory that refuses writes the
    reset to 0 is swallowed by [writeConfig]; with a check one minute old
    the gate stays closed and [forceUpdate] returns [false] without a
    version query or a registry request. *)
Lemma C6_swallowed_reset_stays_in_cooldown :
  let w' := snd (Updater.forceUpdate gemini read_only_just_checked) in
  fst (Config.getLastUpdateCheck read_only_just_checked)
  = Return (Some 1700007140000) /\
  fst (Updater.forceUpdate gemini read_only_just_checked) = Return false /\
  effects (trace w') = [] /\
  trace w'
  = [EvConsoleWarn "Warning: Could not write config file:"
                   "EACCES: permission denied, open";
     EvLog Debug "Skipping update check (within cooldown period)" []] /\
  fst (Config.getLastUpdateCheck w') = Return (Some 1700007140000).
Proof. repeat split; vm_compute; reflexivity. Qed.

(** C6, amended: on a config directory that exists and accepts writes,
    [forceUpdate] first writes [lastUpdateCheck = 0] (the document is
    otherwise written back as read); with that value the cooldown gate is
    open whatever the clock says, and the check that follows runs the
    version query and the registry request: the first three effects of
    [forceUpdate] are that write, the query and the request, for every
    content of the config file. *)
Theorem C6_forceUpdate_bypasses_cooldown (u : Updater.t) (w : World) :
  writable w = true -> dir_exists w = true ->
  let w0 := snd (Config.setLastUpdateCheck 0 w) in
  fst (Config.getLastUpdateCheck w0) = Return (Some 0) /\
  fst (Updater.isWithinCooldown u w0) = Return false /\
  exists evs c0 rest,
    trace (snd (Updater.forceUpdate u w)) = trace w ++ evs /\
    effects evs
    = EvWriteConfig c0
      :: EvExec (Updater.commandName u ++ " --version")%string
      :: EvHttpGet (Updater.registry_url u) :: rest /\
    lastUpdateCheck c0 = Some 0 /\
    fst (Config.readConfig w0) = Return c0 /\
    (forall c, fst (Config.readConfig w) = Return c ->
       c0 = mkConfig (Some 0) (lastUpdateTime c) (versionHistory c)
                     (settings c)).
Proof.
  intros Hw Hd w0.
  destruct (ForceFacts.setLastUpdateCheck_run 0 w Hw Hd)
    as (Hret0 & Hlast & evs0 & c0 & Htr0 & Heff0 & Hc0 & Hdoc & Hread0).
  fold w0 in Hlast, Htr0, Hread0.
  assert (Hpin : lastUpdateCheck c0 = Some 0 /\
                 fst (Config.readConfig w0) = Return c0 /\
                 (forall c, fst (Config.readConfig w) = Return c ->
                    c0 = mkConfig (Some 0) (lastUpdateTime c)
                                  (versionHistory c) (settings c))).
  { split; [ exact Hc0 | ]. split; [ exact Hread0 | ].
    intros c Hc. rewrite ConfigFacts.readConfig_value in Hc.
    injection Hc as <-. exact Hdoc. }
  clear Hc0 Hdoc Hread0.
  assert (Hgate : fst (Updater.isWithinCooldown u w0) = Return false).
  { rewrite UpdaterFacts.isWithinCooldown_value. f_equal.
    rewrite UpdaterFacts.getLastUpdateCheck_value in Hlast.
    injection Hlast as Hlast. unfold cooling.
    now rewrite Hlast. }
  split; [ exact Hlast | ]. split; [ exact Hgate | ].
  destruct (ForceFacts.open_gate_check_looks_up u w0 Hgate)
    as (b & evs1 & rest1 & Hret1 & Htr1 & Heff1).
  unfold Updater.forceUpdate, bind.
  rewrite (surjective_pairing (Config.setLastUpdateCheck 0 w)), Hret0.
  fold w0.
  rewrite (surjective_pairing (Updater.checkForUpdate u w0)), Hret1.
  destruct b.
  - destruct (ForceFacts.performUpdate_grows
                u (snd (Updater.checkForUpdate u w0))) as [evs2 Htr2].
    exists (evs0 ++ evs1 ++ evs2), c0, (rest1 ++ effects evs2).
    split; [ | split; [ | exact Hpin ] ].
    + rewrite Htr2, Htr1, Htr0. now rewrite <- !app_assoc.
    + rewrite !ForceFacts.effects_app, Heff0, Heff1. reflexivity.
  - exists (evs0 ++ evs1), c0, rest1.
    split; [ | split; [ | exact Hpin ] ].
    + cbn. rewrite Htr1, Htr0. now rewrite <- !app_assoc.
    + rewrite !ForceFacts.effects_app, Heff0, Heff1. reflexivity.
Qed.

(** The amended C6 on a store that was checked a minute ago. *)
Lemma C6_forceUpdate_bypasses_cooldown_witness :
  fst (Updater.isWithinCooldown gemini just_checked) = Return true /\
  exists rest,
    effects (trace (snd (Updater.forceUpdate gemini just_checked)))
    = EvWriteConfig (mkConfig (Some 0) None (Some [])
                              (settings Config.getDefaultConfig))
      :: EvExec "gemini --version"
      :: EvHttpGet "https://registry.npmjs.org/@google/gemini-cli/latest"
      :: rest.
Proof.
  split; [ vm_compute; reflexivity | ].
  destruct (C6_forceUpdate_bypasses_cooldown gemini just_checked
              eq_refl eq_refl)
    as (_ & _ & evs & c0 & rest & Htr & Heff & _ & _ & Hdoc).
  exists rest. rewrite Htr.
  rewrite (Hdoc (stored just_checked) ltac:(vm_compute; reflexivity)) in Heff.
  exact Heff.
Defined.
